(** * SameSite cookie issue classifier

    A shallow embedding of
    [front_end/models/issues_manager/SameSiteCookieIssue.ts]:
    the issue-code resolver [codeForSameSiteDetails], the issue factory
    [createIssuesFromSameSiteDetails], the deduplication key [primaryKey],
    the severity [getKind], the protocol adapter [fromInspectorIssue] and the
    third-party attribution [isCausedByThirdParty] with its domain comparison
    [isSubdomainOf], and the accessors [cookies], [requests] and
    [getDescription] with the table [issueDescriptions] and its descriptions.

    JavaScript strings are sequences of code units; they are embedded as
    [string] (sequences of [ascii]).  Every string operation the module uses
    ([length], [startsWith], [endsWith], [substr], [===], [join], template
    literals) is positional, so the embedding is independent of the width of
    a unit. *)

From Stdlib Require Import String Ascii List Bool Arith Lia.
Import ListNotations.

Open Scope string_scope.
Open Scope bool_scope.

(** ** JavaScript primitives used by the module *)

Module JS.

(** [s.startsWith(p)] *)
Definition startsWith (s p : string) : bool := String.prefix p s.

(** [s.endsWith(t)]: the last [t.length] units of [s] are [t]. *)
Definition endsWith (s t : string) : bool :=
  let n := String.length s in
  let m := String.length t in
  if Nat.leb m n then String.eqb (substring (n - m) m s) t else false.

(** [s.substr(start, len)] for non-negative arguments. *)
Definition substr (s : string) (start len : nat) : string :=
  substring start len s.

(** [parts.join(sep)] *)
Definition join (parts : list string) (sep : string) : string :=
  String.concat sep parts.

(** Truthiness of a string value: every string but the empty one. *)
Definition truthy (s : string) : bool := negb (String.eqb s "").

(** [a.length > 0] on an array that may be [undefined]
    ([a && a.length > 0], [a?.length > 0]). *)
Definition nonEmpty {A : Type} (a : option (list A)) : bool :=
  match a with
  | Some (_ :: _) => true
  | _ => false
  end.

(** The elements of an array that may be [undefined]. *)
Definition elements {A : Type} (a : option (list A)) : list A :=
  match a with
  | Some l => l
  | None => []
  end.

End JS.

(** ** The protocol types ([generated/protocol.js], namespace [Audits]) *)

Module Protocol.

(** Modelled from the spec: the enumeration
    [Protocol.Audits.SameSiteCookieExclusionReason] is declared in the
    generated protocol file, which is absent; its members are the ones the
    module and its description table name. *)
Inductive SameSiteCookieExclusionReason : Type :=
| ExcludeSameSiteUnspecifiedTreatedAsLax
| ExcludeSameSiteNoneInsecure
| ExcludeSameSiteLax
| ExcludeSameSiteStrict
| ExcludeInvalidSameParty.

(** Modelled from the spec: the enumeration
    [Protocol.Audits.SameSiteCookieWarningReason] of the absent generated
    protocol file. *)
Inductive SameSiteCookieWarningReason : Type :=
| WarnSameSiteUnspecifiedCrossSiteContext
| WarnSameSiteNoneInsecure
| WarnSameSiteUnspecifiedLaxAllowUnsafe
| WarnSameSiteStrictLaxDowngradeStrict
| WarnSameSiteStrictCrossDowngradeStrict
| WarnSameSiteStrictCrossDowngradeLax
| WarnSameSiteLaxCrossDowngradeStrict
| WarnSameSiteLaxCrossDowngradeLax.

(** Modelled from the spec: the enumeration
    [Protocol.Audits.SameSiteCookieOperation] of the absent generated
    protocol file. *)
Inductive SameSiteCookieOperation : Type :=
| SetCookie
| ReadCookie.

(** Modelled from the spec: the run-time value of an exclusion reason is
    the string of its name, as the keys of [issueDescriptions] show. *)
Definition exclusionReasonValue (r : SameSiteCookieExclusionReason) : string :=
  match r with
  | ExcludeSameSiteUnspecifiedTreatedAsLax => "ExcludeSameSiteUnspecifiedTreatedAsLax"
  | ExcludeSameSiteNoneInsecure => "ExcludeSameSiteNoneInsecure"
  | ExcludeSameSiteLax => "ExcludeSameSiteLax"
  | ExcludeSameSiteStrict => "ExcludeSameSiteStrict"
  | ExcludeInvalidSameParty => "ExcludeInvalidSameParty"
  end.

(** Modelled from the spec: the run-time value of a warning reason is the
    string of its name. *)
Definition warningReasonValue (r : SameSiteCookieWarningReason) : string :=
  match r with
  | WarnSameSiteUnspecifiedCrossSiteContext => "WarnSameSiteUnspecifiedCrossSiteContext"
  | WarnSameSiteNoneInsecure => "WarnSameSiteNoneInsecure"
  | WarnSameSiteUnspecifiedLaxAllowUnsafe => "WarnSameSiteUnspecifiedLaxAllowUnsafe"
  | WarnSameSiteStrictLaxDowngradeStrict => "WarnSameSiteStrictLaxDowngradeStrict"
  | WarnSameSiteStrictCrossDowngradeStrict => "WarnSameSiteStrictCrossDowngradeStrict"
  | WarnSameSiteStrictCrossDowngradeLax => "WarnSameSiteStrictCrossDowngradeLax"
  | WarnSameSiteLaxCrossDowngradeStrict => "WarnSameSiteLaxCrossDowngradeStrict"
  | WarnSameSiteLaxCrossDowngradeLax => "WarnSameSiteLaxCrossDowngradeLax"
  end.

(** Modelled from the spec: the run-time value of an operation is the
    string of its name. *)
Definition operationValue (o : SameSiteCookieOperation) : string :=
  match o with
  | SetCookie => "SetCookie"
  | ReadCookie => "ReadCookie"
  end.

(** Modelled from the spec: [Protocol.Audits.InspectorIssueCode.SameSiteCookieIssue],
    the first component of every key of [issueDescriptions]. *)
Definition InspectorIssueCode_SameSiteCookieIssue : string := "SameSiteCookieIssue".

(** [Protocol.Audits.AffectedCookie] *)
Record AffectedCookie : Type := {
  name : string;
  path : string;
  domain : string
}.

(** [Protocol.Audits.AffectedRequest] *)
Record AffectedRequest : Type := {
  requestId : string;
  url : option string
}.

(** [Protocol.Audits.SameSiteCookieIssueDetails]; the module guards both
    reason arrays against being [undefined], hence the options. *)
Record SameSiteCookieIssueDetails : Type := {
  cookie : option AffectedCookie;
  rawCookieLine : option string;
  cookieWarningReasons : option (list SameSiteCookieWarningReason);
  cookieExclusionReasons : option (list SameSiteCookieExclusionReason);
  operation : SameSiteCookieOperation;
  siteForCookies : option string;
  cookieUrl : option string;
  request : option AffectedRequest
}.

(** [Protocol.Audits.InspectorIssueDetails], restricted to the member the
    module reads. *)
Record InspectorIssueDetails : Type := {
  sameSiteCookieIssueDetails : option SameSiteCookieIssueDetails
}.

(** [Protocol.Audits.InspectorIssue] *)
Record InspectorIssue : Type := {
  code : string;
  details : InspectorIssueDetails
}.

End Protocol.

Import Protocol.

(** The parameter type of [codeForSameSiteDetails]:
    [SameSiteCookieExclusionReason | SameSiteCookieWarningReason]. *)
Inductive Reason : Type :=
| Exclusion (r : SameSiteCookieExclusionReason)
| Warning (r : SameSiteCookieWarningReason).

Definition reasonValue (reason : Reason) : string :=
  match reason with
  | Exclusion r => exclusionReasonValue r
  | Warning r => warningReasonValue r
  end.

(** [reason === member]: strict equality of the run-time strings. *)
Definition strictEquals (reason : Reason) (member : string) : bool :=
  String.eqb (reasonValue reason) member.

(** [warningReasons.includes(member)] *)
Definition includes (warningReasons : list SameSiteCookieWarningReason)
    (member : SameSiteCookieWarningReason) : bool :=
  existsb (fun w => String.eqb (warningReasonValue w) (warningReasonValue member))
    warningReasons.

(** [Issue.ts]: the kinds of an issue. *)
Inductive IssueKind : Type :=
| PageError
| BreakingChange
| Improvement.

(** ** The code resolver *)

(** [isURLSecure ? 'Secure' : 'Insecure'], where
    [isURLSecure = cookieUrl && (cookieUrl.startsWith('https://') || cookieUrl.startsWith('wss://'))]. *)
Definition isURLSecure (cookieUrl : option string) : bool :=
  match cookieUrl with
  | Some u => JS.truthy u && (JS.startsWith u "https://" || JS.startsWith u "wss://")
  | None => false
  end.

Definition secureLabel (cookieUrl : option string) : string :=
  if isURLSecure cookieUrl then "Secure" else "Insecure".

(** [SameSiteCookieIssue.codeForSameSiteDetails]; [None] is [null]. *)
Definition codeForSameSiteDetails (reason : Reason)
    (warningReasons : option (list SameSiteCookieWarningReason))
    (operation : SameSiteCookieOperation) (cookieUrl : option string) : option string :=
  let secure := secureLabel cookieUrl in
  if strictEquals reason (exclusionReasonValue ExcludeSameSiteStrict)
     || strictEquals reason (exclusionReasonValue ExcludeSameSiteLax)
     || strictEquals reason (exclusionReasonValue ExcludeSameSiteUnspecifiedTreatedAsLax)
  then
    (* what follows the block guarded by [warningReasons.length > 0] *)
    let uncorroborated :=
      if strictEquals reason (exclusionReasonValue ExcludeSameSiteUnspecifiedTreatedAsLax)
      then Some (JS.join [InspectorIssueCode_SameSiteCookieIssue; reasonValue reason;
                          operationValue operation] "::")
      else None in
    if JS.nonEmpty warningReasons then
      let ws := JS.elements warningReasons in
      if includes ws WarnSameSiteStrictLaxDowngradeStrict then
        Some (JS.join [InspectorIssueCode_SameSiteCookieIssue;
                       "ExcludeNavigationContextDowngrade"; secure] "::")
      else if includes ws WarnSameSiteStrictCrossDowngradeStrict
              || includes ws WarnSameSiteStrictCrossDowngradeLax
              || includes ws WarnSameSiteLaxCrossDowngradeStrict
              || includes ws WarnSameSiteLaxCrossDowngradeLax then
        Some (JS.join [InspectorIssueCode_SameSiteCookieIssue; "ExcludeContextDowngrade";
                       operationValue operation; secure] "::")
      else uncorroborated
    else uncorroborated
  else if strictEquals reason (warningReasonValue WarnSameSiteStrictLaxDowngradeStrict) then
    Some (JS.join [InspectorIssueCode_SameSiteCookieIssue; reasonValue reason; secure] "::")
  else if strictEquals reason (warningReasonValue WarnSameSiteStrictCrossDowngradeStrict)
          || strictEquals reason (warningReasonValue WarnSameSiteStrictCrossDowngradeLax)
          || strictEquals reason (warningReasonValue WarnSameSiteLaxCrossDowngradeLax)
          || strictEquals reason (warningReasonValue WarnSameSiteLaxCrossDowngradeStrict) then
    Some (JS.join [InspectorIssueCode_SameSiteCookieIssue; "WarnCrossDowngrade";
                   operationValue operation; secure] "::")
  else
    Some (JS.join [InspectorIssueCode_SameSiteCookieIssue; reasonValue reason;
                   operationValue operation] "::").

(** ** Domain comparison *)

(** [isSubdomainOf(subdomain, superdomain)] *)
Definition isSubdomainOf (subdomain superdomain : string) : bool :=
  if Nat.leb (String.length subdomain) (String.length superdomain) then
    String.eqb subdomain superdomain
  else if negb (JS.endsWith subdomain superdomain) then
    false
  else
    let subdomainWithoutSuperdomian :=
      JS.substr subdomain 0 (String.length subdomain - String.length superdomain) in
    JS.endsWith subdomainWithoutSuperdomian ".".

(** ** JavaScript maps with string keys *)

Module JSMap.

(** A [Map<string, V>]: its entries in insertion order, with distinct keys. *)
Definition t (V : Type) : Type := list (string * V).

(** [m.set(k, v)]: the value of an existing key is replaced in place, a new
    key is added at the end. *)
Fixpoint set {V : Type} (m : t V) (k : string) (v : V) : t V :=
  match m with
  | [] => [(k, v)]
  | (k', v') :: m' =>
      if String.eqb k' k then (k', v) :: m' else (k', v') :: set m' k v
  end.

(** [new Map(entries)]: the entries are set one after the other. *)
Definition fromEntries {V : Type} (entries : list (string * V)) : t V :=
  fold_left (fun m entry => set m (fst entry) (snd entry)) entries [].

(** [m.get(k)]; [None] is [undefined]. *)
Fixpoint get {V : Type} (m : t V) (k : string) : option V :=
  match m with
  | [] => None
  | (k', v) :: m' => if String.eqb k' k then Some v else get m' k
  end.

(** [m.keys()] *)
Definition keys {V : Type} (m : t V) : list string := map fst m.

End JSMap.

(** ** The messages of the module *)

Module UIStrings.

Definition samesiteCookiesExplained : string := "SameSite cookies explained".
Definition howSchemefulSamesiteWorks : string := "How Schemeful Same-Site Works".
Definition aSecure : string := "a secure".
Definition anInsecure : string := "an insecure".
Definition firstPartySetsExplained : string := "`First-Party Sets` explained".

End UIStrings.

(** ** Issues, their keys and kinds, and the issue factory *)

Section Classifier.

(** [SDK.IssuesModel.IssuesModel]: the model an issue is reported to; the
    module only hands it on to the constructor. *)
Variable IssuesModel : Type.

(** [Common.ParsedURL.ParsedURL] with its static [fromString] ([None] is
    [null]) and its method [domain]: the URL parser lives outside the module
    and is a parameter of the development. *)
Variable ParsedURL : Type.
Variable ParsedURL_fromString : string -> option ParsedURL.
Variable ParsedURL_domain : ParsedURL -> string.

(** The empty string is no URL: the parser asks for a scheme. *)
Hypothesis ParsedURL_fromString_empty : ParsedURL_fromString "" = None.

(** [SDK.ResourceTreeModel.ResourceTreeFrame], restricted to what
    [domainAndRegistry()] returns. *)
Record ResourceTreeFrame : Type := {
  domainAndRegistry : string
}.

(** An instance of the class [SameSiteCookieIssue]: the [code] and
    [issuesModel] of the base class [Issue] and the private [issueDetails]. *)
Record SameSiteCookieIssue : Type := {
  code : string;
  issueDetails : SameSiteCookieIssueDetails;
  issuesModel : IssuesModel
}.

(** [new SameSiteCookieIssue(code, issueDetails, issuesModel)] *)
Definition newSameSiteCookieIssue (code : string) (issueDetails : SameSiteCookieIssueDetails)
    (issuesModel : IssuesModel) : SameSiteCookieIssue :=
  {| code := code; issueDetails := issueDetails; issuesModel := issuesModel |}.

(** [cookieId()] *)
Definition cookieId (this : SameSiteCookieIssue) : string :=
  match cookie (issueDetails this) with
  | Some c => domain c ++ ";" ++ path c ++ ";" ++ name c
  | None =>
      match rawCookieLine (issueDetails this) with
      | Some line => line
      | None => "no-cookie-info"
      end
  end.

(** The local [requestId] of [primaryKey()]:
    [this.issueDetails.request ? this.issueDetails.request.requestId : 'no-request']. *)
Definition primaryKey_requestId (this : SameSiteCookieIssue) : string :=
  match request (issueDetails this) with
  | Some r => requestId r
  | None => "no-request"
  end.

(** [primaryKey()] *)
Definition primaryKey (this : SameSiteCookieIssue) : string :=
  let requestId := primaryKey_requestId this in
  code this ++ "-(" ++ cookieId this ++ ")-(" ++ requestId ++ ")".

(** One turn of either loop of the factory:
    [if (code) { issues.push(new SameSiteCookieIssue(code, ...)) }]. *)
Definition pushIfCode (sameSiteDetails : SameSiteCookieIssueDetails) (issuesModel : IssuesModel)
    (issues : list SameSiteCookieIssue) (code : option string) : list SameSiteCookieIssue :=
  match code with
  | Some c =>
      if JS.truthy c
      then issues ++ [newSameSiteCookieIssue c sameSiteDetails issuesModel]
      else issues
  | None => issues
  end.

(** [SameSiteCookieIssue.createIssuesFromSameSiteDetails]: both loops run
    over the array in order and thread the array [issues]. *)
Definition createIssuesFromSameSiteDetails (sameSiteDetails : SameSiteCookieIssueDetails)
    (issuesModel : IssuesModel) : list SameSiteCookieIssue :=
  let issues : list SameSiteCookieIssue := [] in
  if JS.nonEmpty (cookieExclusionReasons sameSiteDetails) then
    fold_left
      (fun issues exclusionReason =>
         let code := codeForSameSiteDetails (Exclusion exclusionReason)
                       (cookieWarningReasons sameSiteDetails) (operation sameSiteDetails)
                       (cookieUrl sameSiteDetails) in
         pushIfCode sameSiteDetails issuesModel issues code)
      (JS.elements (cookieExclusionReasons sameSiteDetails)) issues
  else
    match cookieWarningReasons sameSiteDetails with
    | Some warningReasons =>
        fold_left
          (fun issues warningReason =>
             let code := codeForSameSiteDetails (Warning warningReason) (Some [])
                           (operation sameSiteDetails) (cookieUrl sameSiteDetails) in
             pushIfCode sameSiteDetails issuesModel issues code)
          warningReasons issues
    | None => issues
    end.

(** [getKind()]: [this.issueDetails.cookieExclusionReasons?.length > 0]. *)
Definition getKind (this : SameSiteCookieIssue) : IssueKind :=
  if JS.nonEmpty (cookieExclusionReasons (issueDetails this)) then PageError
  else BreakingChange.

(** A computation that may write lines to the console: the lines written,
    in order, and the value returned. *)
Definition Console (A : Type) : Type := (list string * A)%type.

Definition ret {A : Type} (a : A) : Console A := ([], a).

(** [console.warn(message)] followed by [k]. *)
Definition console_warn {A : Type} (message : string) (k : Console A) : Console A :=
  (message :: fst k, snd k).

(** [SameSiteCookieIssue.fromInspectorIssue] *)
Definition fromInspectorIssue (issuesModel : IssuesModel) (inspectorIssue : InspectorIssue)
    : Console (list SameSiteCookieIssue) :=
  let sameSiteDetails := sameSiteCookieIssueDetails (details inspectorIssue) in
  match sameSiteDetails with
  | None =>
      console_warn "SameSite issue without details received." (ret [])
  | Some sameSiteDetails =>
      ret (createIssuesFromSameSiteDetails sameSiteDetails issuesModel)
  end.

(** The exported function [isCausedByThirdParty(topFrame, cookieUrl)];
    [topFrame = None] is [null], and [!cookieUrl] holds of [undefined] and of
    the empty string. *)
Definition isCausedByThirdParty (topFrame : option ResourceTreeFrame)
    (cookieUrl : option string) : bool :=
  match topFrame with
  | None => true
  | Some topFrame =>
      match cookieUrl with
      | None => false
      | Some cookieUrl =>
          if negb (JS.truthy cookieUrl) || String.eqb (domainAndRegistry topFrame) "" then false
          else
            match ParsedURL_fromString cookieUrl with
            | None => false
            | Some parsedCookieUrl =>
                negb (isSubdomainOf (ParsedURL_domain parsedCookieUrl)
                        (domainAndRegistry topFrame))
            end
      end
  end.

(** The method [isCausedByThirdParty()] of an issue; the top frame that
    [FrameManager.instance().getTopFrame()] reads is passed in. *)
Definition issue_isCausedByThirdParty (topFrame : option ResourceTreeFrame)
    (this : SameSiteCookieIssue) : bool :=
  isCausedByThirdParty topFrame (cookieUrl (issueDetails this)).

(** ** Affected resources and descriptions *)

(** [cookies()] *)
Definition cookies (this : SameSiteCookieIssue) : list AffectedCookie :=
  match cookie (issueDetails this) with
  | Some c => [c]
  | None => []
  end.

(** [requests()] *)
Definition requests (this : SameSiteCookieIssue) : list AffectedRequest :=
  match request (issueDetails this) with
  | Some r => [r]
  | None => []
  end.

(** [i18n.i18n.getLocalizedString(str_, message)]: the string of a message
    of this module in the language of the user; localisation lives outside
    the module. *)
Variable getLocalizedString : string -> string.

(** [i18nLazyString(message)]: a function that localises when it is called. *)
Definition i18nLazyString (message : string) : unit -> string :=
  fun _ => getLocalizedString message.

(** An element of [links]: [{link, linkTitle}] with a lazy title. *)
Record LazyLink : Type := {
  link : string;
  linkTitle : unit -> string
}.

(** [LazyMarkdownIssueDescription], with the members the object literals of
    the module give it; [substitutions] is optional. *)
Record LazyMarkdownIssueDescription : Type := {
  file : string;
  substitutions : option (JSMap.t (unit -> string));
  links : list LazyLink
}.

(** [MarkdownIssueDescription] and [resolveLazyDescription], imported from
    [MarkdownIssueDescription.js]. *)
Variable MarkdownIssueDescription : Type.
Variable resolveLazyDescription : LazyMarkdownIssueDescription -> MarkdownIssueDescription.

Definition sameSiteUnspecifiedErrorRead : LazyMarkdownIssueDescription :=
  {| file := "SameSiteUnspecifiedTreatedAsLaxRead.md";
     substitutions := None;
     links :=
       [{| link := "https://web.dev/samesite-cookies-explained/";
           linkTitle := i18nLazyString UIStrings.samesiteCookiesExplained |}] |}.

Definition sameSiteUnspecifiedErrorSet : LazyMarkdownIssueDescription :=
  {| file := "SameSiteUnspecifiedTreatedAsLaxSet.md";
     substitutions := None;
     links :=
       [{| link := "https://web.dev/samesite-cookies-explained/";
           linkTitle := i18nLazyString UIStrings.samesiteCookiesExplained |}] |}.

Definition sameSiteUnspecifiedWarnRead : LazyMarkdownIssueDescription :=
  {| file := "SameSiteUnspecifiedLaxAllowUnsafeRead.md";
     substitutions := None;
     links :=
       [{| link := "https://web.dev/samesite-cookies-explained/";
           linkTitle := i18nLazyString UIStrings.samesiteCookiesExplained |}] |}.

Definition sameSiteUnspecifiedWarnSet : LazyMarkdownIssueDescription :=
  {| file := "SameSiteUnspecifiedLaxAllowUnsafeSet.md";
     substitutions := None;
     links :=
       [{| link := "https://web.dev/samesite-cookies-explained/";
           linkTitle := i18nLazyString UIStrings.samesiteCookiesExplained |}] |}.

Definition sameSiteNoneInsecureErrorRead : LazyMarkdownIssueDescription :=
  {| file := "SameSiteNoneInsecureErrorRead.md";
     substitutions := None;
     links :=
       [{| link := "https://web.dev/samesite-cookies-explained/";
           linkTitle := i18nLazyString UIStrings.samesiteCookiesExplained |}] |}.

Definition sameSiteNoneInsecureErrorSet : LazyMarkdownIssueDescription :=
  {| file := "SameSiteNoneInsecureErrorSet.md";
     substitutions := None;
     links :=
       [{| link := "https://web.dev/samesite-cookies-explained/";
           linkTitle := i18nLazyString UIStrings.samesiteCookiesExplained |}] |}.

Definition sameSiteNoneInsecureWarnRead : LazyMarkdownIssueDescription :=
  {| file := "SameSiteNoneInsecureWarnRead.md";
     substitutions := None;
     links :=
       [{| link := "https://web.dev/samesite-cookies-explained/";
           linkTitle := i18nLazyString UIStrings.samesiteCookiesExplained |}] |}.

Definition sameSiteNoneInsecureWarnSet : LazyMarkdownIssueDescription :=
  {| file := "SameSiteNoneInsecureWarnSet.md";
     substitutions := None;
     links :=
       [{| link := "https://web.dev/samesite-cookies-explained/";
           linkTitle := i18nLazyString UIStrings.samesiteCookiesExplained |}] |}.

Definition schemefulSameSiteArticles : list LazyLink :=
  [{| link := "https://web.dev/schemeful-samesite/";
      linkTitle := i18nLazyString UIStrings.howSchemefulSamesiteWorks |}].

(** [schemefulSameSiteSubstitutions({isDestinationSecure, isOriginSecure})] *)
Definition schemefulSameSiteSubstitutions (isDestinationSecure isOriginSecure : bool)
    : JSMap.t (unit -> string) :=
  JSMap.fromEntries
    [("PLACEHOLDER_destination",
      fun _ : unit => if isDestinationSecure then "a secure" else "an insecure");
     ("PLACEHOLDER_origin",
      fun _ : unit => if isOriginSecure then "a secure" else "an insecure")].

Definition sameSiteWarnStrictLaxDowngradeStrict (isSecure : bool)
    : LazyMarkdownIssueDescription :=
  {| file := "SameSiteWarnStrictLaxDowngradeStrict.md";
     substitutions := Some (schemefulSameSiteSubstitutions isSecure (negb isSecure));
     links := schemefulSameSiteArticles |}.

Definition sameSiteExcludeNavigationContextDowngrade (isSecure : bool)
    : LazyMarkdownIssueDescription :=
  {| file := "SameSiteExcludeNavigationContextDowngrade.md";
     substitutions := Some (schemefulSameSiteSubstitutions isSecure (negb isSecure));
     links := schemefulSameSiteArticles |}.

Definition sameSiteWarnCrossDowngradeRead (isSecure : bool) : LazyMarkdownIssueDescription :=
  {| file := "SameSiteWarnCrossDowngradeRead.md";
     substitutions := Some (schemefulSameSiteSubstitutions isSecure (negb isSecure));
     links := schemefulSameSiteArticles |}.

Definition sameSiteExcludeContextDowngradeRead (isSecure : bool)
    : LazyMarkdownIssueDescription :=
  {| file := "SameSiteExcludeContextDowngradeRead.md";
     substitutions := Some (schemefulSameSiteSubstitutions isSecure (negb isSecure));
     links := schemefulSameSiteArticles |}.

Definition sameSiteWarnCrossDowngradeSet (isSecure : bool) : LazyMarkdownIssueDescription :=
  {| file := "SameSiteWarnCrossDowngradeSet.md";
     substitutions := Some (schemefulSameSiteSubstitutions (negb isSecure) isSecure);
     links := schemefulSameSiteArticles |}.

Definition sameSiteExcludeContextDowngradeSet (isSecure : bool)
    : LazyMarkdownIssueDescription :=
  {| file := "SameSiteExcludeContextDowngradeSet.md";
     substitutions := Some (schemefulSameSiteSubstitutions isSecure (negb isSecure));
     links := schemefulSameSiteArticles |}.

Definition sameSiteInvalidSameParty : LazyMarkdownIssueDescription :=
  {| file := "SameSiteInvalidSameParty.md";
     substitutions := None;
     links :=
       [{| link := "https://developer.chrome.com/docs/privacy-sandbox/first-party-sets/";
           linkTitle := i18nLazyString UIStrings.firstPartySetsExplained |}] |}.

(** The array literal that [issueDescriptions] is built from. *)
Definition issueDescriptionEntries : list (string * LazyMarkdownIssueDescription) :=
  [("SameSiteCookieIssue::ExcludeSameSiteUnspecifiedTreatedAsLax::ReadCookie",
    sameSiteUnspecifiedErrorRead);
   ("SameSiteCookieIssue::ExcludeSameSiteUnspecifiedTreatedAsLax::SetCookie",
    sameSiteUnspecifiedErrorSet);
   ("SameSiteCookieIssue::WarnSameSiteUnspecifiedLaxAllowUnsafe::ReadCookie",
    sameSiteUnspecifiedWarnRead);
   ("SameSiteCookieIssue::WarnSameSiteUnspecifiedLaxAllowUnsafe::SetCookie",
    sameSiteUnspecifiedWarnSet);
   ("SameSiteCookieIssue::WarnSameSiteUnspecifiedCrossSiteContext::ReadCookie",
    sameSiteUnspecifiedWarnRead);
   ("SameSiteCookieIssue::WarnSameSiteUnspecifiedCrossSiteContext::SetCookie",
    sameSiteUnspecifiedWarnSet);
   ("SameSiteCookieIssue::ExcludeSameSiteNoneInsecure::ReadCookie",
    sameSiteNoneInsecureErrorRead);
   ("SameSiteCookieIssue::ExcludeSameSiteNoneInsecure::SetCookie",
    sameSiteNoneInsecureErrorSet);
   ("SameSiteCookieIssue::WarnSameSiteNoneInsecure::ReadCookie", sameSiteNoneInsecureWarnRead);
   ("SameSiteCookieIssue::WarnSameSiteNoneInsecure::SetCookie", sameSiteNoneInsecureWarnSet);
   ("SameSiteCookieIssue::WarnSameSiteStrictLaxDowngradeStrict::Secure",
    sameSiteWarnStrictLaxDowngradeStrict true);
   ("SameSiteCookieIssue::WarnSameSiteStrictLaxDowngradeStrict::Insecure",
    sameSiteWarnStrictLaxDowngradeStrict false);
   ("SameSiteCookieIssue::WarnCrossDowngrade::ReadCookie::Secure",
    sameSiteWarnCrossDowngradeRead true);
   ("SameSiteCookieIssue::WarnCrossDowngrade::ReadCookie::Insecure",
    sameSiteWarnCrossDowngradeRead false);
   ("SameSiteCookieIssue::WarnCrossDowngrade::SetCookie::Secure",
    sameSiteWarnCrossDowngradeSet true);
   ("SameSiteCookieIssue::WarnCrossDowngrade::SetCookie::Insecure",
    sameSiteWarnCrossDowngradeSet false);
   ("SameSiteCookieIssue::ExcludeNavigationContextDowngrade::Secure",
    sameSiteExcludeNavigationContextDowngrade true);
   ("SameSiteCookieIssue::ExcludeNavigationContextDowngrade::Insecure",
    sameSiteExcludeNavigationContextDowngrade false);
   ("SameSiteCookieIssue::ExcludeContextDowngrade::ReadCookie::Secure",
    sameSiteExcludeContextDowngradeRead true);
   ("SameSiteCookieIssue::ExcludeContextDowngrade::ReadCookie::Insecure",
    sameSiteExcludeContextDowngradeRead false);
   ("SameSiteCookieIssue::ExcludeContextDowngrade::SetCookie::Secure",
    sameSiteExcludeContextDowngradeSet true);
   ("SameSiteCookieIssue::ExcludeContextDowngrade::SetCookie::Insecure",
    sameSiteExcludeContextDowngradeSet false);
   ("SameSiteCookieIssue::ExcludeInvalidSameParty::SetCookie", sameSiteInvalidSameParty)].

(** [issueDescriptions] *)
Definition issueDescriptions : JSMap.t LazyMarkdownIssueDescription :=
  JSMap.fromEntries issueDescriptionEntries.

(** [getDescription()]; [None] is [null]. *)
Definition getDescription (this : SameSiteCookieIssue) : option MarkdownIssueDescription :=
  match JSMap.get issueDescriptions (code this) with
  | None => None
  | Some description => Some (resolveLazyDescription description)
  end.

(** ** Definitions used in the statements *)

(** [occursIn pat s]: [pat] is a substring of [s]. *)
Fixpoint occursIn (pat s : string) : bool :=
  String.prefix pat s ||
  match s with
  | EmptyString => false
  | String _ s' => occursIn pat s'
  end.

(** The issue a non-null code gives rise to in either loop of the factory. *)
Definition issuesOfCode (sameSiteDetails : SameSiteCookieIssueDetails) (issuesModel : IssuesModel)
    (code : option string) : list SameSiteCookieIssue :=
  match code with
  | Some c => [newSameSiteCookieIssue c sameSiteDetails issuesModel]
  | None => []
  end.

(** The five warnings that corroborate a SameSite exclusion. *)
Definition downgradeWarnings : list SameSiteCookieWarningReason :=
  [WarnSameSiteStrictLaxDowngradeStrict;
   WarnSameSiteStrictCrossDowngradeStrict; WarnSameSiteStrictCrossDowngradeLax;
   WarnSameSiteLaxCrossDowngradeStrict; WarnSameSiteLaxCrossDowngradeLax].

(** A code that ends in the secure label. *)
Definition hasSecureSuffix (c : string) : bool :=
  JS.endsWith c "::Secure" || JS.endsWith c "::Insecure".

(** The URLs whose label is ["Secure"]. *)
Definition secureScheme (cookieUrl : option string) : Prop :=
  exists u, cookieUrl = Some u /\
            ((exists rest, u = "https://" ++ rest) \/ (exists rest, u = "wss://" ++ rest)).

(** The report [d] with its operation replaced. *)
Definition withOperation (d : SameSiteCookieIssueDetails) (o : SameSiteCookieOperation)
    : SameSiteCookieIssueDetails :=
  {| cookie := cookie d;
     rawCookieLine := rawCookieLine d;
     cookieWarningReasons := cookieWarningReasons d;
     cookieExclusionReasons := cookieExclusionReasons d;
     operation := o;
     siteForCookies := siteForCookies d;
     cookieUrl := cookieUrl d;
     request := request d |}.

(** The three exclusions that a downgrade warning corroborates. *)
Definition sameSiteExclusions : list SameSiteCookieExclusionReason :=
  [ExcludeSameSiteStrict; ExcludeSameSiteLax; ExcludeSameSiteUnspecifiedTreatedAsLax].

(** The reasons that take the generic path of the resolver whatever the
    warning set holds. *)
Definition genericReasons : list Reason :=
  [Exclusion ExcludeSameSiteNoneInsecure; Exclusion ExcludeInvalidSameParty;
   Warning WarnSameSiteUnspecifiedCrossSiteContext; Warning WarnSameSiteNoneInsecure;
   Warning WarnSameSiteUnspecifiedLaxAllowUnsafe].

(** The reasons that the module names, in its resolver or in the keys of
    its description table. *)
Definition namedReasons : list Reason :=
  [Exclusion ExcludeSameSiteUnspecifiedTreatedAsLax; Exclusion ExcludeSameSiteNoneInsecure;
   Exclusion ExcludeSameSiteLax; Exclusion ExcludeSameSiteStrict;
   Exclusion ExcludeInvalidSameParty;
   Warning WarnSameSiteUnspecifiedCrossSiteContext; Warning WarnSameSiteNoneInsecure;
   Warning WarnSameSiteUnspecifiedLaxAllowUnsafe; Warning WarnSameSiteStrictLaxDowngradeStrict;
   Warning WarnSameSiteStrictCrossDowngradeStrict; Warning WarnSameSiteStrictCrossDowngradeLax;
   Warning WarnSameSiteLaxCrossDowngradeStrict; Warning WarnSameSiteLaxCrossDowngradeLax].

(** The four warnings of a cross-scheme downgrade. *)
Definition crossDowngradeWarnings : list SameSiteCookieWarningReason :=
  [WarnSameSiteStrictCrossDowngradeStrict; WarnSameSiteStrictCrossDowngradeLax;
   WarnSameSiteLaxCrossDowngradeStrict; WarnSameSiteLaxCrossDowngradeLax].

(** The warning set holds a downgrade warning. *)
Definition corroborated (warningReasons : option (list SameSiteCookieWarningReason)) : bool :=
  existsb (includes (JS.elements warningReasons)) downgradeWarnings.

(** A phrase of a schemeful description, once its function is called. *)
Definition phrase (subs : JSMap.t (unit -> string)) (placeholder : string) : option string :=
  match JSMap.get subs placeholder with
  | Some f => Some (f tt)
  | None => None
  end.

(** The strings of a list are pairwise different. *)
Fixpoint distinct (l : list string) : bool :=
  match l with
  | [] => true
  | x :: l' => negb (existsb (String.eqb x) l') && distinct l'
  end.

(** ** Sample inputs *)

(** A stand-in for the URL parser, to run the attribution on concrete URLs:
    it accepts [https://] followed by a host and takes the host as domain. *)
Definition sampleParse (u : string) : option string :=
  if JS.startsWith u "https://"
  then Some (substring 8 (String.length u - 8) u)
  else None.

(** A blocked cookie: two exclusion reasons and a warning reason that
    corroborates neither. *)
Definition blockedReport : SameSiteCookieIssueDetails :=
  {| cookie := Some {| name := "sid"; path := "/"; domain := "a.b.com" |};
     rawCookieLine := None;
     cookieWarningReasons := Some [WarnSameSiteNoneInsecure];
     cookieExclusionReasons :=
       Some [ExcludeSameSiteStrict; ExcludeSameSiteUnspecifiedTreatedAsLax];
     operation := ReadCookie;
     siteForCookies := None;
     cookieUrl := Some "https://a.b.com/";
     request := Some {| requestId := "1000.7"; url := None |} |}.

(** A cookie that was let through with two warnings. *)
Definition warnedReport : SameSiteCookieIssueDetails :=
  {| cookie := None;
     rawCookieLine := Some "sid=1; SameSite=None";
     cookieWarningReasons :=
       Some [WarnSameSiteStrictLaxDowngradeStrict; WarnSameSiteNoneInsecure];
     cookieExclusionReasons := Some [];
     operation := SetCookie;
     siteForCookies := None;
     cookieUrl := Some "http://a.com";
     request := None |}.

(** A blocked cookie whose only exclusion reason lacks its corroborating
    warning, next to a warning that would resolve on its own. *)
Definition suppressedReport : SameSiteCookieIssueDetails :=
  {| cookie := None;
     rawCookieLine := Some "sid=1; SameSite=None";
     cookieWarningReasons := Some [WarnSameSiteNoneInsecure];
     cookieExclusionReasons := Some [ExcludeSameSiteStrict];
     operation := SetCookie;
     siteForCookies := None;
     cookieUrl := Some "http://a.com";
     request := None |}.

(** Two reports of one warning whose raw cookie lines and request ids
    differ by where [")-("] stands. *)
Definition clashLeftReport : SameSiteCookieIssueDetails :=
  {| cookie := None;
     rawCookieLine := Some "k=v)-(0";
     cookieWarningReasons := Some [WarnSameSiteNoneInsecure];
     cookieExclusionReasons := Some [];
     operation := SetCookie;
     siteForCookies := None;
     cookieUrl := Some "http://a.com";
     request := Some {| requestId := "1"; url := None |} |}.

Definition clashRightReport : SameSiteCookieIssueDetails :=
  {| cookie := None;
     rawCookieLine := Some "k=v";
     cookieWarningReasons := Some [WarnSameSiteNoneInsecure];
     cookieExclusionReasons := Some [];
     operation := SetCookie;
     siteForCookies := None;
     cookieUrl := Some "http://a.com";
     request := Some {| requestId := "0)-(1"; url := None |} |}.

(** A blocked cookie with a navigation downgrade: three exclusion reasons,
    two of which resolve to one code. *)
Definition downgradedReport : SameSiteCookieIssueDetails :=
  {| cookie := Some {| name := "sid"; path := "/"; domain := "b.com" |};
     rawCookieLine := None;
     cookieWarningReasons := Some [WarnSameSiteStrictLaxDowngradeStrict];
     cookieExclusionReasons :=
       Some [ExcludeSameSiteStrict; ExcludeSameSiteNoneInsecure; ExcludeSameSiteLax];
     operation := ReadCookie;
     siteForCookies := None;
     cookieUrl := Some "http://b.com/";
     request := Some {| requestId := "1000.9"; url := None |} |}.

(** ** Lemmas on the enumerations and on [includes] *)

Lemma warningReasonValue_inj (a b : SameSiteCookieWarningReason) :
  warningReasonValue a = warningReasonValue b -> a = b.
Proof. destruct a, b; simpl; intro H; try reflexivity; discriminate H. Qed.

Lemma includes_In (ws : list SameSiteCookieWarningReason) (m : SameSiteCookieWarningReason) :
  includes ws m = true <-> In m ws.
Proof.
  unfold includes. rewrite existsb_exists. split.
  - intros [w [Hin Heq]]. apply String.eqb_eq in Heq.
    apply warningReasonValue_inj in Heq. now subst.
  - intro Hin. exists m. split; [assumption | apply String.eqb_refl].
Qed.

Lemma includes_not_In (ws : list SameSiteCookieWarningReason) (m : SameSiteCookieWarningReason) :
  includes ws m = false <-> ~ In m ws.
Proof.
  rewrite <- includes_In. destruct (includes ws m); split; intro H;
    try reflexivity; try discriminate; try (intro; discriminate).
  exfalso. now apply H.
Qed.

Lemma nonEmpty_In {A : Type} (a : option (list A)) (x : A) :
  In x (JS.elements a) -> JS.nonEmpty a = true.
Proof. destruct a as [[|y l]|]; simpl; intro H; now try reflexivity. Qed.

(** The resolver never returns the empty string. *)
Lemma codeForSameSiteDetails_truthy reason ws op url c :
  codeForSameSiteDetails reason ws op url = Some c -> JS.truthy c = true.
Proof.
  unfold codeForSameSiteDetails.
  repeat match goal with
         | |- context [if ?b then _ else _] => destruct b
         end;
  intro H; inversion H; reflexivity.
Qed.

(** ** Properties of the code resolver *)

(** The label is one of the two words. *)
Lemma secureLabel_cases (cookieUrl : option string) :
  secureLabel cookieUrl = "Secure" \/ secureLabel cookieUrl = "Insecure".
Proof. unfold secureLabel. destruct (isURLSecure cookieUrl); [left | right]; reflexivity. Qed.

Lemma startsWith_iff (s p : string) :
  JS.startsWith s p = true <-> exists rest, s = p ++ rest.
Proof.
  unfold JS.startsWith. revert s. induction p as [|a p IH]; intro s.
  - destruct s; simpl; split; intros; try reflexivity; eexists; reflexivity.
  - destruct s as [|b s]; simpl.
    + split; [discriminate | intros [rest H]; discriminate H].
    + destruct (ascii_dec a b) as [->|Hne].
      * rewrite IH. split; intros [rest H]; exists rest.
        -- now rewrite H.
        -- now inversion H.
      * split; [discriminate | intros [rest H]; inversion H; congruence].
Qed.

(** C3: for a Strict, Lax or UnspecifiedTreatedAsLax exclusion, every
    operation and every cookie URL, a warning set that contains
    [WarnSameSiteStrictLaxDowngradeStrict] resolves to the code
    [SameSiteCookieIssue::ExcludeNavigationContextDowngrade::{secure}],
    whatever else the set contains; the [ExcludeContextDowngrade] code is
    not produced. *)
Theorem codeForSameSiteDetails_navigation_downgrade
    (reason : SameSiteCookieExclusionReason)
    (warningReasons : list SameSiteCookieWarningReason)
    (operation : SameSiteCookieOperation) (cookieUrl : option string) :
  In reason [ExcludeSameSiteStrict; ExcludeSameSiteLax; ExcludeSameSiteUnspecifiedTreatedAsLax] ->
  In WarnSameSiteStrictLaxDowngradeStrict warningReasons ->
  codeForSameSiteDetails (Exclusion reason) (Some warningReasons) operation cookieUrl
    = Some ("SameSiteCookieIssue::ExcludeNavigationContextDowngrade::" ++ secureLabel cookieUrl)
  /\ codeForSameSiteDetails (Exclusion reason) (Some warningReasons) operation cookieUrl
    <> Some ("SameSiteCookieIssue::ExcludeContextDowngrade::" ++ operationValue operation
             ++ "::" ++ secureLabel cookieUrl).
Proof.
  intros Hreason Hin.
  assert (Hne : JS.nonEmpty (Some warningReasons) = true)
    by (apply (nonEmpty_In (Some warningReasons) WarnSameSiteStrictLaxDowngradeStrict Hin)).
  apply includes_In in Hin.
  assert (Heq : codeForSameSiteDetails (Exclusion reason) (Some warningReasons) operation cookieUrl
    = Some ("SameSiteCookieIssue::ExcludeNavigationContextDowngrade::" ++ secureLabel cookieUrl)).
  { unfold codeForSameSiteDetails. rewrite Hne. cbn [JS.elements]. rewrite Hin.
    simpl in Hreason.
    destruct Hreason as [<-|[<-|[<-|[]]]]; reflexivity. }
  split; [exact Heq|]. rewrite Heq. intro H. inversion H.
Qed.

(** C4: when the warning set holds none of the five downgrade warnings, an
    [ExcludeSameSiteUnspecifiedTreatedAsLax] exclusion resolves to
    [SameSiteCookieIssue::ExcludeSameSiteUnspecifiedTreatedAsLax::{operation}]
    and the Strict and Lax exclusions resolve to no code, for every operation
    and cookie URL. *)
Theorem codeForSameSiteDetails_uncorroborated
    (warningReasons : option (list SameSiteCookieWarningReason))
    (operation : SameSiteCookieOperation) (cookieUrl : option string) :
  (forall w, In w downgradeWarnings -> ~ In w (JS.elements warningReasons)) ->
  codeForSameSiteDetails (Exclusion ExcludeSameSiteUnspecifiedTreatedAsLax)
      warningReasons operation cookieUrl
    = Some ("SameSiteCookieIssue::ExcludeSameSiteUnspecifiedTreatedAsLax::"
            ++ operationValue operation)
  /\ codeForSameSiteDetails (Exclusion ExcludeSameSiteStrict) warningReasons operation cookieUrl
     = None
  /\ codeForSameSiteDetails (Exclusion ExcludeSameSiteLax) warningReasons operation cookieUrl
     = None.
Proof.
  intro Hfree.
  assert (H1 : includes (JS.elements warningReasons) WarnSameSiteStrictLaxDowngradeStrict = false)
    by (apply includes_not_In, Hfree; simpl; tauto).
  assert (H2 : includes (JS.elements warningReasons) WarnSameSiteStrictCrossDowngradeStrict = false)
    by (apply includes_not_In, Hfree; simpl; tauto).
  assert (H3 : includes (JS.elements warningReasons) WarnSameSiteStrictCrossDowngradeLax = false)
    by (apply includes_not_In, Hfree; simpl; tauto).
  assert (H4 : includes (JS.elements warningReasons) WarnSameSiteLaxCrossDowngradeStrict = false)
    by (apply includes_not_In, Hfree; simpl; tauto).
  assert (H5 : includes (JS.elements warningReasons) WarnSameSiteLaxCrossDowngradeLax = false)
    by (apply includes_not_In, Hfree; simpl; tauto).
  unfold codeForSameSiteDetails. rewrite H1, H2, H3, H4, H5.
  destruct (JS.nonEmpty warningReasons); repeat split; reflexivity.
Qed.

(** The instance of C4 that the specification lists:
    [resolveCode(ExcludeSameSiteStrict, [], ReadCookie, undefined)] is none. *)
Example codeForSameSiteDetails_strict_alone :
  codeForSameSiteDetails (Exclusion ExcludeSameSiteStrict) (Some []) ReadCookie None = None.
Proof. reflexivity. Qed.

(** The instance of C3 that the specification lists. *)
Example codeForSameSiteDetails_downgrade_precedence :
  codeForSameSiteDetails (Exclusion ExcludeSameSiteLax)
    (Some [WarnSameSiteStrictLaxDowngradeStrict; WarnSameSiteLaxCrossDowngradeLax])
    SetCookie (Some "https://a.com")
  = Some "SameSiteCookieIssue::ExcludeNavigationContextDowngrade::Secure".
Proof. reflexivity. Qed.

Lemma isURLSecure_iff (cookieUrl : option string) :
  isURLSecure cookieUrl = true <-> secureScheme cookieUrl.
Proof.
  unfold isURLSecure, secureScheme. destruct cookieUrl as [u|].
  - rewrite andb_true_iff, orb_true_iff, !startsWith_iff. split.
    + intros [_ H]. exists u. split; [reflexivity | exact H].
    + intros [u' [Hu H]]. inversion Hu; subst u'. split; [|exact H].
      destruct H as [[rest ->]|[rest ->]]; reflexivity.
  - split; [discriminate | intros [u [Hu _]]; discriminate Hu].
Qed.

Ltac pick_code_family :=
  solve [ left; left; reflexivity
        | left; right; left; reflexivity
        | left; right; right; left; reflexivity
        | left; right; right; right; reflexivity
        | right; split; reflexivity ].


(** ** Strings: lengths, substrings and suffixes *)

Lemma length_app (s t : string) :
  String.length (s ++ t) = String.length s + String.length t.
Proof. induction s as [|a s IH]; simpl; [reflexivity | now rewrite IH]. Qed.

Lemma substring_all (s : string) : substring 0 (String.length s) s = s.
Proof. induction s as [|a s IH]; simpl; [reflexivity | now rewrite IH]. Qed.

Lemma substring_take_app (p t : string) : substring 0 (String.length p) (p ++ t) = p.
Proof.
  induction p as [|a p IH]; simpl.
  - destruct t; reflexivity.
  - now rewrite IH.
Qed.

Lemma substring_drop_app (p t : string) :
  substring (String.length p) (String.length t) (p ++ t) = t.
Proof. induction p as [|a p IH]; simpl; [apply substring_all | exact IH]. Qed.

Lemma substring_split (s : string) (n : nat) :
  n <= String.length s ->
  substring 0 n s ++ substring n (String.length s - n) s = s.
Proof.
  revert n. induction s as [|a s IH]; intros n Hn.
  - destruct n; reflexivity.
  - destruct n as [|n]; simpl.
    + now rewrite substring_all.
    + simpl in Hn. f_equal. apply IH. lia.
Qed.

Lemma endsWith_iff (s t : string) :
  JS.endsWith s t = true <-> exists p, s = p ++ t.
Proof.
  unfold JS.endsWith. split.
  - destruct (Nat.leb_spec (String.length t) (String.length s)) as [Hle|Hlt]; [|discriminate].
    intro H. apply String.eqb_eq in H.
    exists (substring 0 (String.length s - String.length t) s).
    pose proof (substring_split s (String.length s - String.length t)) as Hs.
    replace (String.length s - (String.length s - String.length t))
      with (String.length t) in Hs by lia.
    rewrite H in Hs. symmetry. apply Hs. lia.
  - intros [p ->]. rewrite length_app.
    destruct (Nat.leb_spec (String.length t) (String.length p + String.length t)); [|lia].
    replace (String.length p + String.length t - String.length t) with (String.length p) by lia.
    rewrite substring_drop_app. apply String.eqb_refl.
Qed.

Lemma get_after_prefix (q t : string) (c : ascii) :
  String.get (String.length q) ((q ++ String c "") ++ t) = Some c.
Proof. induction q as [|a q IH]; simpl; [reflexivity | exact IH]. Qed.

Lemma last_unit (p t : string) (c : ascii) :
  p <> "" ->
  String.get (String.length p - 1) (p ++ t) = Some c ->
  exists q, p = q ++ String c "".
Proof.
  induction p as [|a p IH]; intros Hne Hget; [contradiction|].
  destruct p as [|b p].
  - simpl in Hget. inversion Hget. exists "". reflexivity.
  - assert (Hget' : String.get (String.length (String b p) - 1) (String b p ++ t) = Some c).
    { simpl in Hget |- *. rewrite Nat.sub_0_r. exact Hget. }
    destruct (IH ltac:(discriminate) Hget') as [q Hq].
    exists (String a q). simpl. now rewrite <- Hq.
Qed.

(** ** Properties of the domain comparison *)

(** [sub] is a dot followed by [sup], after some prefix. *)
Lemma isSubdomainOf_label (subdomain superdomain : string) :
  String.length superdomain < String.length subdomain ->
  (isSubdomainOf subdomain superdomain = true
   <-> exists q, subdomain = (q ++ ".") ++ superdomain).
Proof.
  intro Hlt. unfold isSubdomainOf, JS.substr.
  destruct (Nat.leb_spec (String.length subdomain) (String.length superdomain)) as [Hle|_];
    [lia|].
  split.
  - destruct (JS.endsWith subdomain superdomain) eqn:Hends; simpl; [|discriminate].
    apply endsWith_iff in Hends. destruct Hends as [p ->].
    rewrite length_app.
    replace (String.length p + String.length superdomain - String.length superdomain)
      with (String.length p) by lia.
    rewrite substring_take_app. intro Hdot.
    apply endsWith_iff in Hdot. destruct Hdot as [q ->]. now exists q.
  - intros [q ->].
    assert (Hends : JS.endsWith ((q ++ ".") ++ superdomain) superdomain = true)
      by (apply endsWith_iff; now exists (q ++ ".")).
    rewrite Hends. simpl. rewrite length_app.
    replace (String.length (q ++ ".") + String.length superdomain - String.length superdomain)
      with (String.length (q ++ ".")) by lia.
    rewrite substring_take_app. apply endsWith_iff. now exists q.
Qed.

(** C2: [isSubdomainOf(sub, sup)] holds exactly when [sub] is no longer than
    [sup] and equal to it, or [sub] is strictly longer, ends with [sup] and
    has a dot just before that suffix; the four instances of the
    specification follow. *)
Theorem isSubdomainOf_spec (sub sup : string) :
  (isSubdomainOf sub sup = true
   <-> (String.length sub <= String.length sup /\ sub = sup)
       \/ (String.length sup < String.length sub
           /\ (exists p, sub = p ++ sup)
           /\ String.get (String.length sub - String.length sup - 1) sub = Some "."%char))
  /\ isSubdomainOf "a.b.com" "b.com" = true
  /\ isSubdomainOf "evilb.com" "b.com" = false
  /\ isSubdomainOf "b.com" "b.com" = true
  /\ isSubdomainOf "x.com" "b.com" = false.
Proof.
  split; [|repeat split; reflexivity].
  destruct (Nat.leb_spec (String.length sub) (String.length sup)) as [Hle|Hlt].
  - assert (Hdef : isSubdomainOf sub sup = String.eqb sub sup).
    { unfold isSubdomainOf.
      destruct (Nat.leb_spec (String.length sub) (String.length sup)); [reflexivity | lia]. }
    rewrite Hdef, String.eqb_eq. split.
    + intros ->. left. split; [lia | reflexivity].
    + intros [[_ H]|[H _]]; [exact H | lia].
  - rewrite (isSubdomainOf_label sub sup Hlt). split.
    + intros [q ->]. right. split; [exact Hlt|]. split.
      * now exists (q ++ ".").
      * rewrite !length_app. simpl String.length.
        replace (String.length q + 1 + String.length sup - String.length sup - 1)
          with (String.length q) by lia.
        apply get_after_prefix.
    + intros [[H _]|[_ [[p ->] Hget]]]; [lia|].
      rewrite length_app in Hlt, Hget.
      replace (String.length p + String.length sup - String.length sup - 1)
        with (String.length p - 1) in Hget by lia.
      assert (Hne : p <> "") by (intros ->; simpl in Hlt; lia).
      destruct (last_unit p sup "."%char Hne Hget) as [q ->]. now exists q.
Qed.

(** ** Properties of the third-party attribution *)

(** C5: [isCausedByThirdParty] answers [true] without a top frame; else
    [false] when the cookie URL is absent or the registrable domain of the top
    frame is empty; else [false] when the cookie URL does not parse; else the
    negation of [isSubdomainOf] on the parsed domain and the registrable
    domain.  The answer for an issue does not change with its operation. *)
Theorem isCausedByThirdParty_spec
    (topFrame : option ResourceTreeFrame) (cookieUrl : option string) :
  (topFrame = None -> isCausedByThirdParty topFrame cookieUrl = true)
  /\ (forall frame, topFrame = Some frame ->
        cookieUrl = None \/ domainAndRegistry frame = "" ->
        isCausedByThirdParty topFrame cookieUrl = false)
  /\ (forall frame u, topFrame = Some frame -> cookieUrl = Some u ->
        ParsedURL_fromString u = None ->
        isCausedByThirdParty topFrame cookieUrl = false)
  /\ (forall frame u parsed, topFrame = Some frame -> cookieUrl = Some u ->
        domainAndRegistry frame <> "" ->
        ParsedURL_fromString u = Some parsed ->
        isCausedByThirdParty topFrame cookieUrl
        = negb (isSubdomainOf (ParsedURL_domain parsed) (domainAndRegistry frame)))
  /\ (forall code details issuesModel o,
        issue_isCausedByThirdParty topFrame
          (newSameSiteCookieIssue code (withOperation details o) issuesModel)
        = issue_isCausedByThirdParty topFrame
            (newSameSiteCookieIssue code details issuesModel)).
Proof.
  split; [|split; [|split; [|split]]].
  - intros ->. reflexivity.
  - intros frame -> [-> | Hdom]; simpl; [reflexivity|].
    destruct cookieUrl as [u|]; [|reflexivity].
    rewrite Hdom. simpl. now rewrite orb_true_r.
  - intros frame u -> -> Hparse. simpl. rewrite Hparse.
    destruct (negb (JS.truthy u) || String.eqb (domainAndRegistry frame) ""); reflexivity.
  - intros frame u parsed -> -> Hdom Hparse. simpl.
    apply String.eqb_neq in Hdom. rewrite Hdom, orb_false_r.
    destruct u as [|a u].
    + rewrite ParsedURL_fromString_empty in Hparse. discriminate Hparse.
    + simpl. now rewrite Hparse.
  - intros. reflexivity.
Qed.

(** What the guard [!cookieUrl] adds to the absent URL: the empty one. *)
Lemma isCausedByThirdParty_empty_url (frame : ResourceTreeFrame) :
  isCausedByThirdParty (Some frame) (Some "") = false.
Proof. reflexivity. Qed.

(** ** Properties of the issue factory, the adapter and the kind *)

Lemma fold_pushIfCode {X : Type} (d : SameSiteCookieIssueDetails) (m : IssuesModel)
    (resolve : X -> option string) (l : list X) (issues : list SameSiteCookieIssue) :
  (forall x c, resolve x = Some c -> JS.truthy c = true) ->
  fold_left (fun issues x => pushIfCode d m issues (resolve x)) l issues
  = (issues ++ flat_map (fun x => issuesOfCode d m (resolve x)) l)%list.
Proof.
  intro Htruthy. revert issues. induction l as [|x l IH]; intro issues; simpl.
  - now rewrite List.app_nil_r.
  - rewrite IH. unfold pushIfCode, issuesOfCode.
    destruct (resolve x) as [c|] eqn:Hx.
    + rewrite (Htruthy x c Hx). now rewrite <- List.app_assoc.
    + reflexivity.
Qed.

(** The factory as a function of the list it walks. *)
Lemma createIssuesFromSameSiteDetails_unfold (d : SameSiteCookieIssueDetails) (m : IssuesModel) :
  createIssuesFromSameSiteDetails d m
  = if JS.nonEmpty (cookieExclusionReasons d) then
      flat_map (fun e => issuesOfCode d m
                  (codeForSameSiteDetails (Exclusion e) (cookieWarningReasons d)
                     (operation d) (cookieUrl d)))
        (JS.elements (cookieExclusionReasons d))
    else
      flat_map (fun w => issuesOfCode d m
                  (codeForSameSiteDetails (Warning w) (Some []) (operation d) (cookieUrl d)))
        (JS.elements (cookieWarningReasons d)).
Proof.
  unfold createIssuesFromSameSiteDetails.
  destruct (JS.nonEmpty (cookieExclusionReasons d)).
  - rewrite fold_pushIfCode; [reflexivity|].
    intros x c. apply codeForSameSiteDetails_truthy.
  - destruct (cookieWarningReasons d) as [ws|]; [|reflexivity].
    rewrite fold_pushIfCode; [reflexivity|].
    intros x c. apply codeForSameSiteDetails_truthy.
Qed.

Lemma In_issuesOfCode d m (resolved : option string) (i : SameSiteCookieIssue) :
  In i (issuesOfCode d m resolved) ->
  resolved = Some (code i) /\ issueDetails i = d /\ issuesModel i = m.
Proof.
  destruct resolved as [c|]; simpl; [|contradiction].
  intros [<-|[]]. repeat split.
Qed.

(** Every issue of the factory carries the report it was made from. *)
Lemma createIssuesFromSameSiteDetails_details d m (i : SameSiteCookieIssue) :
  In i (createIssuesFromSameSiteDetails d m) -> issueDetails i = d.
Proof.
  rewrite createIssuesFromSameSiteDetails_unfold.
  destruct (JS.nonEmpty (cookieExclusionReasons d)); rewrite in_flat_map;
    intros [x [_ Hin]]; now apply In_issuesOfCode in Hin.
Qed.

Lemma exclusion_code_prefix e ws op url c :
  codeForSameSiteDetails (Exclusion e) ws op url = Some c ->
  JS.startsWith c "SameSiteCookieIssue::Exclude" = true.
Proof.
  unfold codeForSameSiteDetails.
  destruct e; destruct op; cbn;
    repeat match goal with
           | |- context [if ?b then _ else _] => destruct b
           end;
    intro H; inversion H; reflexivity.
Qed.

Lemma warning_code_prefix w ws op url c :
  codeForSameSiteDetails (Warning w) ws op url = Some c ->
  JS.startsWith c "SameSiteCookieIssue::Warn" = true.
Proof.
  unfold codeForSameSiteDetails.
  destruct w; destruct op; cbn; intro H; inversion H; reflexivity.
Qed.

Lemma exclusion_prefix_not_warning (c : string) :
  JS.startsWith c "SameSiteCookieIssue::Exclude" = true ->
  JS.startsWith c "SameSiteCookieIssue::Warn" = false.
Proof.
  intro H. apply startsWith_iff in H. destruct H as [rest ->]. reflexivity.
Qed.

(** C1: when the report has exclusion reasons, the factory returns the
    issues of the exclusion reasons alone, each resolved in order against the
    full warning set of the report; no code of the output is one that a
    warning reason resolves to, and the output is empty when every exclusion
    reason resolves to no code. *)
Theorem createIssuesFromSameSiteDetails_exclusion_priority
    (sameSiteDetails : SameSiteCookieIssueDetails) (issuesModel : IssuesModel)
    (exclusionReasons : list SameSiteCookieExclusionReason) :
  cookieExclusionReasons sameSiteDetails = Some exclusionReasons ->
  exclusionReasons <> [] ->
  let resolve e :=
    codeForSameSiteDetails (Exclusion e) (cookieWarningReasons sameSiteDetails)
      (operation sameSiteDetails) (cookieUrl sameSiteDetails) in
  createIssuesFromSameSiteDetails sameSiteDetails issuesModel
    = flat_map (fun e => issuesOfCode sameSiteDetails issuesModel (resolve e)) exclusionReasons
  /\ (forall issue, In issue (createIssuesFromSameSiteDetails sameSiteDetails issuesModel) ->
      forall w warningReasons operation cookieUrl,
        codeForSameSiteDetails (Warning w) warningReasons operation cookieUrl
        <> Some (code issue))
  /\ ((forall e, In e exclusionReasons -> resolve e = None) ->
      createIssuesFromSameSiteDetails sameSiteDetails issuesModel = []).
Proof.
  intros Hex Hne resolve.
  assert (Hout : createIssuesFromSameSiteDetails sameSiteDetails issuesModel
    = flat_map (fun e => issuesOfCode sameSiteDetails issuesModel (resolve e)) exclusionReasons).
  { rewrite createIssuesFromSameSiteDetails_unfold, Hex.
    destruct exclusionReasons; [contradiction | reflexivity]. }
  split; [exact Hout|]. rewrite Hout. split.
  - intros issue Hin w ws op url Hw.
    apply in_flat_map in Hin. destruct Hin as [e [_ Hin]].
    apply In_issuesOfCode in Hin. destruct Hin as [He _].
    apply exclusion_code_prefix, exclusion_prefix_not_warning in He.
    apply warning_code_prefix in Hw. congruence.
  - intro Hnone. clear Hout Hne Hex.
    induction exclusionReasons as [|e l IH]; [reflexivity|].
    simpl. rewrite (Hnone e) by (left; reflexivity). simpl.
    apply IH. intros e' He'. apply Hnone. now right.
Qed.

(** C7: when the report has no exclusion reasons (the list is empty or
    absent), the factory returns, in the order of the warning reasons, one
    issue for each warning reason whose code, resolved against the empty
    warning set, is not none. *)
Theorem createIssuesFromSameSiteDetails_warning_branch
    (sameSiteDetails : SameSiteCookieIssueDetails) (issuesModel : IssuesModel) :
  cookieExclusionReasons sameSiteDetails = None
  \/ cookieExclusionReasons sameSiteDetails = Some [] ->
  createIssuesFromSameSiteDetails sameSiteDetails issuesModel
  = flat_map
      (fun w => issuesOfCode sameSiteDetails issuesModel
                  (codeForSameSiteDetails (Warning w) (Some [])
                     (operation sameSiteDetails) (cookieUrl sameSiteDetails)))
      (JS.elements (cookieWarningReasons sameSiteDetails)).
Proof.
  intro Hex. rewrite createIssuesFromSameSiteDetails_unfold.
  destruct Hex as [-> | ->]; reflexivity.
Qed.

(** C8: a notification without the SameSite payload yields no issue; the
    adapter returns normally, having written one warning to the console. *)
Theorem fromInspectorIssue_missing_details
    (issuesModel : IssuesModel) (inspectorIssue : InspectorIssue) :
  sameSiteCookieIssueDetails (details inspectorIssue) = None ->
  fromInspectorIssue issuesModel inspectorIssue
  = (["SameSite issue without details received."], []).
Proof. intro H. unfold fromInspectorIssue. rewrite H. reflexivity. Qed.

(** C10: [getKind()] is [PageError] exactly when the report of the issue has
    a non-empty list of exclusion reasons and [BreakingChange] otherwise; so
    the issues the factory makes from a report with exclusion reasons are all
    [PageError]s, and those of the warning branch all [BreakingChange]s. *)
Theorem getKind_spec (issue : SameSiteCookieIssue)
    (sameSiteDetails : SameSiteCookieIssueDetails) (issuesModel : IssuesModel) :
  (getKind issue = PageError
   <-> exists e es, cookieExclusionReasons (issueDetails issue) = Some (e :: es))
  /\ (getKind issue = BreakingChange
      <-> ~ exists e es, cookieExclusionReasons (issueDetails issue) = Some (e :: es))
  /\ (In issue (createIssuesFromSameSiteDetails sameSiteDetails issuesModel) ->
      getKind issue
      = if JS.nonEmpty (cookieExclusionReasons sameSiteDetails) then PageError
        else BreakingChange).
Proof.
  split; [|split].
  - unfold getKind. destruct (cookieExclusionReasons (issueDetails issue)) as [[|e es]|]; simpl;
      split; intro H; try discriminate H; try reflexivity;
      try (now exists e, es); destruct H as [e' [es' H]]; discriminate H.
  - unfold getKind. destruct (cookieExclusionReasons (issueDetails issue)) as [[|e es]|]; simpl;
      split; intro H; try discriminate H; try reflexivity;
      try (intros [e' [es' H']]; discriminate H').
    exfalso. apply H. now exists e, es.
  - intro Hin. apply createIssuesFromSameSiteDetails_details in Hin.
    unfold getKind. now rewrite Hin.
Qed.

(** ** Properties of the deduplication key *)

Lemma occursIn_tail (pat : string) (a : ascii) (s : string) :
  occursIn pat (String a s) = false -> occursIn pat s = false.
Proof. simpl. intro H. now apply orb_false_iff in H. Qed.

Lemma occursIn_prefix (pat s : string) :
  String.prefix pat s = true -> occursIn pat s = true.
Proof.
  intro H. destruct s as [|a s].
  - change (String.prefix pat "" || false = true). now rewrite H.
  - change (String.prefix pat (String a s) || occursIn pat s = true). now rewrite H.
Qed.

Lemma occursIn_intro (pat c r : string) : occursIn pat (c ++ pat ++ r) = true.
Proof.
  induction c as [|a c IH].
  - apply occursIn_prefix. apply (startsWith_iff (pat ++ r) pat). now exists r.
  - simpl. rewrite IH. apply orb_true_r.
Qed.

(** The first ["-("] of a key ends its code, when the code has none. *)
Lemma split_at_first_open (c1 c2 r1 r2 : string) :
  occursIn "-(" c1 = false -> occursIn "-(" c2 = false ->
  c1 ++ "-(" ++ r1 = c2 ++ "-(" ++ r2 ->
  c1 = c2 /\ r1 = r2.
Proof.
  revert c2. induction c1 as [|a c1 IH]; intros c2 H1 H2 Heq.
  - destruct c2 as [|b c2]; simpl in Heq.
    + injection Heq as Hr. now split.
    + exfalso. injection Heq as Hb Hrest. subst b.
      destruct c2 as [|b c2]; simpl in Hrest; [discriminate Hrest|].
      injection Hrest as Hb _. subst b. destruct c2; discriminate H2.
  - destruct c2 as [|b c2]; simpl in Heq.
    + exfalso. injection Heq as Ha Hrest. subst a.
      destruct c1 as [|a c1]; simpl in Hrest; [discriminate Hrest|].
      injection Hrest as Ha _. subst a. destruct c1; discriminate H1.
    + injection Heq as Hab Hrest. subst b.
      destruct (IH c2 (occursIn_tail _ _ _ H1) (occursIn_tail _ _ _ H2) Hrest) as [-> ->].
      split; reflexivity.
Qed.

Lemma app_rparen_inj (s t : string) : s ++ ")" = t ++ ")" -> s = t.
Proof.
  revert t. induction s as [|a s IH]; intros [|b t] H; simpl in H.
  - reflexivity.
  - injection H as _ Hrest. destruct t; discriminate Hrest.
  - injection H as _ Hrest. destruct s; discriminate Hrest.
  - injection H as Hab Hrest. now rewrite Hab, (IH t Hrest).
Qed.

(** An occurrence of [")-("] in [a ++ ")"] lies in [a]: it ends in ["("]. *)
Lemma occursIn_before_rparen (a : string) :
  occursIn ")-(" (a ++ ")") = true -> occursIn ")-(" a = true.
Proof.
  induction a as [|x a IH]; [discriminate|].
  simpl append. intro H.
  change (String.prefix ")-(" (String x (a ++ ")")) || occursIn ")-(" (a ++ ")") = true) in H.
  change (String.prefix ")-(" (String x a) || occursIn ")-(" a = true).
  apply orb_true_iff in H. apply orb_true_iff. destruct H as [H|H]; [left | right; now apply IH].
  apply (startsWith_iff (String x (a ++ ")")) ")-(") in H. destruct H as [rest H].
  apply (startsWith_iff (String x a) ")-(").
  simpl in H. injection H as Hx Hrest.
  destruct a as [|y a]; simpl in Hrest; [discriminate Hrest|].
  injection Hrest as Hy Hrest.
  destruct a as [|z a]; simpl in Hrest; [discriminate Hrest|].
  injection Hrest as Hz _. subst x y z. now exists a.
Qed.

(** A request id without [")-("] leaves no room, between the parentheses
    of a key, for a later [")-("]. *)
Lemma no_later_close_open (rid cid' rid' : string) (y : ascii) :
  occursIn ")-(" rid = false ->
  ")-(" ++ rid ++ ")" <> String y cid' ++ ")-(" ++ rid' ++ ")".
Proof.
  intros Hfree Heq. simpl in Heq. injection Heq as _ H1.
  destruct cid' as [|a cid']; simpl in H1; [discriminate H1|].
  injection H1 as _ H2.
  destruct cid' as [|b cid']; simpl in H2; [discriminate H2|].
  injection H2 as _ H3.
  assert (Hocc : occursIn ")-(" (rid ++ ")") = true)
    by (rewrite H3; apply (occursIn_intro ")-(" cid' (rid' ++ ")"))).
  apply occursIn_before_rparen in Hocc. congruence.
Qed.

(** The last [")-("] of a key opens its request id, when the id has none. *)
Lemma split_at_last_close_open (cid1 cid2 rid1 rid2 : string) :
  occursIn ")-(" rid1 = false -> occursIn ")-(" rid2 = false ->
  cid1 ++ ")-(" ++ rid1 ++ ")" = cid2 ++ ")-(" ++ rid2 ++ ")" ->
  cid1 = cid2 /\ rid1 = rid2.
Proof.
  revert cid2. induction cid1 as [|a cid1 IH]; intros cid2 H1 H2 Heq.
  - destruct cid2 as [|b cid2].
    + split; [reflexivity|]. simpl in Heq. injection Heq as Hrest.
      now apply app_rparen_inj.
    + exfalso. exact (no_later_close_open rid1 cid2 rid2 b H1 Heq).
  - destruct cid2 as [|b cid2].
    + exfalso. symmetry in Heq. exact (no_later_close_open rid2 cid1 rid1 a H2 Heq).
    + simpl in Heq. injection Heq as Hab Hrest.
      destruct (IH cid2 H1 H2 Hrest) as [-> ->]. subst b. split; reflexivity.
Qed.

(** The codes of the resolver hold no ["-("]. *)
Lemma codeForSameSiteDetails_no_open reason ws op url c :
  codeForSameSiteDetails reason ws op url = Some c -> occursIn "-(" c = false.
Proof.
  unfold codeForSameSiteDetails.
  generalize (secureLabel_cases url). generalize (secureLabel url).
  intros s [-> | ->]; destruct reason as [[]|[]]; destruct op; cbn;
    repeat match goal with
           | |- context [if ?b then _ else _] => destruct b
           end;
    intro H; inversion H; reflexivity.
Qed.

(** C9, amended: the primary key is [{code}-({cookieId})-({requestId})],
    where the cookie identity is [{domain};{path};{name}] of the cookie, else
    the raw cookie line, else [no-cookie-info], and the request identity is
    the request id, else [no-request].  Issues that agree on the code and on
    both identities have equal keys; equal keys force that agreement when
    the codes hold no ["-("] and the request identities hold no [")-("]. *)
Theorem primaryKey_spec (issue other : SameSiteCookieIssue) :
  primaryKey issue
    = code issue ++ "-(" ++ cookieId issue ++ ")-(" ++ primaryKey_requestId issue ++ ")"
  /\ cookieId issue
     = match cookie (issueDetails issue), rawCookieLine (issueDetails issue) with
       | Some c, _ => domain c ++ ";" ++ path c ++ ";" ++ name c
       | None, Some line => line
       | None, None => "no-cookie-info"
       end
  /\ primaryKey_requestId issue
     = match request (issueDetails issue) with
       | Some r => requestId r
       | None => "no-request"
       end
  /\ (code issue = code other /\ cookieId issue = cookieId other
      /\ primaryKey_requestId issue = primaryKey_requestId other ->
      primaryKey issue = primaryKey other)
  /\ (occursIn "-(" (code issue) = false -> occursIn "-(" (code other) = false ->
      occursIn ")-(" (primaryKey_requestId issue) = false ->
      occursIn ")-(" (primaryKey_requestId other) = false ->
      primaryKey issue = primaryKey other ->
      code issue = code other /\ cookieId issue = cookieId other
      /\ primaryKey_requestId issue = primaryKey_requestId other).
Proof.
  split; [reflexivity|]. split; [|split; [reflexivity|split]].
  - unfold cookieId. destruct (cookie (issueDetails issue)); reflexivity.
  - intros [Hc [Hi Hr]]. unfold primaryKey. now rewrite Hc, Hi, Hr.
  - intros Hc1 Hc2 Hr1 Hr2 Heq. unfold primaryKey in Heq.
    apply split_at_first_open in Heq; [|assumption|assumption].
    destruct Heq as [Hcode Hrest].
    apply split_at_last_close_open in Hrest; [|assumption|assumption].
    destruct Hrest as [Hcid Hrid]. repeat split; assumption.
Qed.

(** ** Further properties of the code resolver *)

Lemma includes_ext (l l' : list SameSiteCookieWarningReason) (m : SameSiteCookieWarningReason) :
  (forall w, In w l <-> In w l') -> includes l m = includes l' m.
Proof.
  intro Hext. destruct (includes l' m) eqn:H'.
  - apply includes_In. apply Hext. now apply includes_In.
  - apply includes_not_In. intro Hin. apply Hext in Hin.
    apply includes_In in Hin. congruence.
Qed.

Lemma nonEmpty_ext {A : Type} (a a' : option (list A)) :
  (forall x, In x (JS.elements a) <-> In x (JS.elements a')) ->
  JS.nonEmpty a = JS.nonEmpty a'.
Proof.
  intro Hext.
  destruct a as [[|x l]|], a' as [[|x' l']|]; simpl in *; try reflexivity;
    try (exfalso; apply (Hext x); now left);
    try (exfalso; apply (Hext x'); now left).
Qed.

Lemma corroborated_false (ws : option (list SameSiteCookieWarningReason)) :
  corroborated ws = false
  <-> forall w, In w downgradeWarnings -> ~ In w (JS.elements ws).
Proof.
  unfold corroborated. split.
  - intros H w Hw Hin. apply includes_In in Hin.
    assert (Hex : existsb (includes (JS.elements ws)) downgradeWarnings = true)
      by (apply existsb_exists; now exists w).
    congruence.
  - intro H. destruct (existsb (includes (JS.elements ws)) downgradeWarnings) eqn:Hex;
      [|reflexivity].
    apply existsb_exists in Hex. destruct Hex as [w [Hw Hin]].
    apply includes_In in Hin. exfalso. exact (H w Hw Hin).
Qed.

Lemma corroborated_true (ws : option (list SameSiteCookieWarningReason)) :
  corroborated ws = true
  <-> exists w, In w downgradeWarnings /\ In w (JS.elements ws).
Proof.
  unfold corroborated. rewrite existsb_exists. split; intros [w [Hw Hin]]; exists w;
    (split; [exact Hw | now apply includes_In]).
Qed.

(** The resolver on the three SameSite exclusions, by what the warning set
    holds. *)
Lemma codeForSameSiteDetails_sameSite_exclusion e ws op url :
  In e sameSiteExclusions ->
  codeForSameSiteDetails (Exclusion e) ws op url
  = if corroborated ws then
      if includes (JS.elements ws) WarnSameSiteStrictLaxDowngradeStrict
      then Some ("SameSiteCookieIssue::ExcludeNavigationContextDowngrade::" ++ secureLabel url)
      else Some ("SameSiteCookieIssue::ExcludeContextDowngrade::" ++ operationValue op
                 ++ "::" ++ secureLabel url)
    else
      match e with
      | ExcludeSameSiteUnspecifiedTreatedAsLax =>
          Some ("SameSiteCookieIssue::ExcludeSameSiteUnspecifiedTreatedAsLax::"
                ++ operationValue op)
      | _ => None
      end.
Proof.
  intro He. unfold codeForSameSiteDetails, corroborated.
  destruct ws as [[|w l]|].
  - simpl in He. destruct He as [<-|[<-|[<-|[]]]]; reflexivity.
  - cbn [JS.nonEmpty JS.elements downgradeWarnings existsb].
    destruct (includes (w :: l) WarnSameSiteStrictLaxDowngradeStrict);
      destruct (includes (w :: l) WarnSameSiteStrictCrossDowngradeStrict);
      destruct (includes (w :: l) WarnSameSiteStrictCrossDowngradeLax);
      destruct (includes (w :: l) WarnSameSiteLaxCrossDowngradeStrict);
      destruct (includes (w :: l) WarnSameSiteLaxCrossDowngradeLax);
      simpl in He; destruct He as [<-|[<-|[<-|[]]]]; reflexivity.
  - simpl in He. destruct He as [<-|[<-|[<-|[]]]]; reflexivity.
Qed.

Lemma secureLabel_iff (cookieUrl : option string) :
  (secureLabel cookieUrl = "Secure" <-> secureScheme cookieUrl)
  /\ (secureLabel cookieUrl = "Insecure" <-> ~ secureScheme cookieUrl).
Proof.
  rewrite <- isURLSecure_iff. unfold secureLabel.
  destruct (isURLSecure cookieUrl); split; split; intro H;
    try reflexivity; try discriminate H.
  - exfalso. now apply H.
  - intro H'. discriminate H'.
Qed.

(** Every code of the resolver is of one of five shapes. *)
Lemma codeForSameSiteDetails_shape reason ws op url :
  match codeForSameSiteDetails reason ws op url with
  | Some c =>
      (c = "SameSiteCookieIssue::ExcludeNavigationContextDowngrade::" ++ secureLabel url
       \/ c = "SameSiteCookieIssue::ExcludeContextDowngrade::" ++ operationValue op
              ++ "::" ++ secureLabel url
       \/ c = "SameSiteCookieIssue::WarnSameSiteStrictLaxDowngradeStrict::" ++ secureLabel url
       \/ c = "SameSiteCookieIssue::WarnCrossDowngrade::" ++ operationValue op
              ++ "::" ++ secureLabel url)
      \/ (c = "SameSiteCookieIssue::" ++ reasonValue reason ++ "::" ++ operationValue op
          /\ hasSecureSuffix c = false)
  | None =>
      reason = Exclusion ExcludeSameSiteStrict \/ reason = Exclusion ExcludeSameSiteLax
  end.
Proof.
  unfold codeForSameSiteDetails.
  destruct reason as [[]|[]]; destruct op; cbn;
    repeat match goal with
           | |- context [if ?b then _ else _] => destruct b
           end;
    first [pick_code_family | left; reflexivity | right; reflexivity].
Qed.

(** A code that ends in the label of a URL ends in the secure label. *)
Lemma hasSecureSuffix_label (family : string) (url : option string) :
  hasSecureSuffix (family ++ "::" ++ secureLabel url) = true.
Proof.
  unfold hasSecureSuffix. apply orb_true_iff.
  destruct (secureLabel_cases url) as [-> | ->]; [left | right];
    apply endsWith_iff; exists family; reflexivity.
Qed.

(** C6: the secure label is ["Secure"] exactly when the cookie URL is present
    and starts with [https://] or [wss://], and ["Insecure"] otherwise.  The
    resolver puts the label at the end of the codes of the four downgrade
    families (ExcludeNavigationContextDowngrade, ExcludeContextDowngrade,
    WarnSameSiteStrictLaxDowngradeStrict, WarnCrossDowngrade), which it
    returns for the inputs named below, and of no other code: on the generic
    path the code is [SameSiteCookieIssue::{reason}::{operation}] without the
    label, as for [WarnSameSiteNoneInsecure] on [http://a.com]. *)
Theorem codeForSameSiteDetails_secure_scope
    (reason : Reason) (warningReasons : option (list SameSiteCookieWarningReason))
    (operation : SameSiteCookieOperation) (cookieUrl : option string) :
  let code := codeForSameSiteDetails reason warningReasons operation cookieUrl in
  let secure := secureLabel cookieUrl in
  let generic :=
    "SameSiteCookieIssue::" ++ reasonValue reason ++ "::" ++ operationValue operation in
  (secure = "Secure" <-> secureScheme cookieUrl)
  /\ (secure = "Insecure" <-> ~ secureScheme cookieUrl)
  /\ (forall e, reason = Exclusion e -> In e sameSiteExclusions ->
      In WarnSameSiteStrictLaxDowngradeStrict (JS.elements warningReasons) ->
      code = Some ("SameSiteCookieIssue::ExcludeNavigationContextDowngrade::" ++ secure))
  /\ (forall e, reason = Exclusion e -> In e sameSiteExclusions ->
      ~ In WarnSameSiteStrictLaxDowngradeStrict (JS.elements warningReasons) ->
      (exists w, In w crossDowngradeWarnings /\ In w (JS.elements warningReasons)) ->
      code = Some ("SameSiteCookieIssue::ExcludeContextDowngrade::"
                   ++ operationValue operation ++ "::" ++ secure))
  /\ (reason = Warning WarnSameSiteStrictLaxDowngradeStrict ->
      code = Some ("SameSiteCookieIssue::WarnSameSiteStrictLaxDowngradeStrict::" ++ secure))
  /\ (forall w, reason = Warning w -> In w crossDowngradeWarnings ->
      code = Some ("SameSiteCookieIssue::WarnCrossDowngrade::"
                   ++ operationValue operation ++ "::" ++ secure))
  /\ (forall family, hasSecureSuffix (family ++ "::" ++ secure) = true)
  /\ (In reason genericReasons
      \/ (reason = Exclusion ExcludeSameSiteUnspecifiedTreatedAsLax
          /\ forall w, In w downgradeWarnings -> ~ In w (JS.elements warningReasons)) ->
      code = Some generic /\ hasSecureSuffix generic = false)
  /\ match code with
     | Some c =>
         (c = "SameSiteCookieIssue::ExcludeNavigationContextDowngrade::" ++ secure
          \/ c = "SameSiteCookieIssue::ExcludeContextDowngrade::" ++ operationValue operation
                 ++ "::" ++ secure
          \/ c = "SameSiteCookieIssue::WarnSameSiteStrictLaxDowngradeStrict::" ++ secure
          \/ c = "SameSiteCookieIssue::WarnCrossDowngrade::" ++ operationValue operation
                 ++ "::" ++ secure)
         \/ (c = generic /\ hasSecureSuffix c = false)
     | None =>
         reason = Exclusion ExcludeSameSiteStrict \/ reason = Exclusion ExcludeSameSiteLax
     end
  /\ codeForSameSiteDetails (Warning WarnSameSiteNoneInsecure) (Some []) SetCookie
       (Some "http://a.com")
     = Some "SameSiteCookieIssue::WarnSameSiteNoneInsecure::SetCookie".
Proof.
  intros code secure generic. subst code secure generic.
  split; [apply secureLabel_iff|]. split; [apply secureLabel_iff|].
  split; [|split; [|split; [|split; [|split; [|split; [|split]]]]]].
  - intros e -> He Hnav.
    rewrite (codeForSameSiteDetails_sameSite_exclusion e _ _ _ He).
    assert (Hcor : corroborated warningReasons = true).
    { apply corroborated_true. exists WarnSameSiteStrictLaxDowngradeStrict.
      split; [simpl; tauto | exact Hnav]. }
    apply includes_In in Hnav. now rewrite Hcor, Hnav.
  - intros e -> He Hnav [w [Hw Hin]].
    rewrite (codeForSameSiteDetails_sameSite_exclusion e _ _ _ He).
    assert (Hcor : corroborated warningReasons = true).
    { apply corroborated_true. exists w. split; [simpl in Hw |- *; tauto | exact Hin]. }
    apply includes_not_In in Hnav. now rewrite Hcor, Hnav.
  - intros ->. reflexivity.
  - intros w -> Hw. simpl in Hw. destruct Hw as [<-|[<-|[<-|[<-|[]]]]]; reflexivity.
  - intro family. apply hasSecureSuffix_label.
  - intros [Hgen | [-> Hfree]].
    + simpl in Hgen.
      destruct Hgen as [<-|[<-|[<-|[<-|[<-|[]]]]]]; destruct operation; split; reflexivity.
    + rewrite (codeForSameSiteDetails_sameSite_exclusion
                 ExcludeSameSiteUnspecifiedTreatedAsLax _ _ _ ltac:(simpl; tauto)).
      apply corroborated_false in Hfree. rewrite Hfree.
      destruct operation; split; reflexivity.
  - apply codeForSameSiteDetails_shape.
  - reflexivity.
Qed.

(** X1: a warning reason always resolves to a code, and the code does not
    depend on the warning set that is passed along. *)
Theorem codeForSameSiteDetails_warning_reason
    (w : SameSiteCookieWarningReason)
    (warningReasons warningReasons' : option (list SameSiteCookieWarningReason))
    (operation : SameSiteCookieOperation) (cookieUrl : option string) :
  codeForSameSiteDetails (Warning w) warningReasons operation cookieUrl
  = codeForSameSiteDetails (Warning w) warningReasons' operation cookieUrl
  /\ codeForSameSiteDetails (Warning w) warningReasons operation cookieUrl <> None.
Proof. destruct w; split; cbn; try reflexivity; discriminate. Qed.

(** X2: the four cross-downgrade warnings resolve to one and the same code,
    [SameSiteCookieIssue::WarnCrossDowngrade::{operation}::{secure}]. *)
Theorem codeForSameSiteDetails_cross_downgrade_shared
    (w : SameSiteCookieWarningReason)
    (warningReasons : option (list SameSiteCookieWarningReason))
    (operation : SameSiteCookieOperation) (cookieUrl : option string) :
  In w crossDowngradeWarnings ->
  codeForSameSiteDetails (Warning w) warningReasons operation cookieUrl
  = Some ("SameSiteCookieIssue::WarnCrossDowngrade::" ++ operationValue operation
          ++ "::" ++ secureLabel cookieUrl).
Proof.
  simpl. intros [<-|[<-|[<-|[<-|[]]]]]; reflexivity.
Qed.

(** X3: the resolver reads the warning reasons as a set: two arrays with
    the same members, in any order and multiplicity, give the same code, and
    an absent array counts as an empty one. *)
Theorem codeForSameSiteDetails_warning_set
    (reason : Reason)
    (warningReasons warningReasons' : option (list SameSiteCookieWarningReason))
    (operation : SameSiteCookieOperation) (cookieUrl : option string) :
  (forall w, In w (JS.elements warningReasons) <-> In w (JS.elements warningReasons')) ->
  codeForSameSiteDetails reason warningReasons operation cookieUrl
  = codeForSameSiteDetails reason warningReasons' operation cookieUrl.
Proof.
  intro Hext. unfold codeForSameSiteDetails.
  rewrite (nonEmpty_ext warningReasons warningReasons' Hext).
  rewrite !(includes_ext _ _ _ Hext). reflexivity.
Qed.

(** X4: once the warning set holds a downgrade warning, the three SameSite
    exclusions are not told apart: each resolves to the same code, and to
    one. *)
Theorem codeForSameSiteDetails_corroborated_merge
    (e e' : SameSiteCookieExclusionReason)
    (warningReasons : option (list SameSiteCookieWarningReason))
    (operation : SameSiteCookieOperation) (cookieUrl : option string) :
  In e sameSiteExclusions -> In e' sameSiteExclusions ->
  (exists w, In w downgradeWarnings /\ In w (JS.elements warningReasons)) ->
  codeForSameSiteDetails (Exclusion e) warningReasons operation cookieUrl
  = codeForSameSiteDetails (Exclusion e') warningReasons operation cookieUrl
  /\ codeForSameSiteDetails (Exclusion e) warningReasons operation cookieUrl <> None.
Proof.
  intros He He' Hcor. apply corroborated_true in Hcor.
  rewrite !codeForSameSiteDetails_sameSite_exclusion by assumption.
  rewrite Hcor. split; [reflexivity|].
  destruct (includes (JS.elements warningReasons) WarnSameSiteStrictLaxDowngradeStrict);
    discriminate.
Qed.

(** X5: the resolver returns null in one case only: the reason is
    [ExcludeSameSiteStrict] or [ExcludeSameSiteLax] and the warning set holds
    none of the five downgrade warnings. *)
Theorem codeForSameSiteDetails_null_iff
    (reason : Reason) (warningReasons : option (list SameSiteCookieWarningReason))
    (operation : SameSiteCookieOperation) (cookieUrl : option string) :
  codeForSameSiteDetails reason warningReasons operation cookieUrl = None
  <-> (reason = Exclusion ExcludeSameSiteStrict \/ reason = Exclusion ExcludeSameSiteLax)
      /\ (forall w, In w downgradeWarnings -> ~ In w (JS.elements warningReasons)).
Proof.
  rewrite <- corroborated_false.
  assert (Hthree : forall e, In e sameSiteExclusions ->
            (codeForSameSiteDetails (Exclusion e) warningReasons operation cookieUrl = None
             <-> (e = ExcludeSameSiteStrict \/ e = ExcludeSameSiteLax)
                 /\ corroborated warningReasons = false)).
  { intros e He. rewrite codeForSameSiteDetails_sameSite_exclusion by assumption.
    destruct (corroborated warningReasons).
    - destruct (includes (JS.elements warningReasons) WarnSameSiteStrictLaxDowngradeStrict);
        split; [discriminate | intros [_ H]; discriminate H
               | discriminate | intros [_ H]; discriminate H].
    - simpl in He. destruct He as [<-|[<-|[<-|[]]]]; split; intro H;
        try (split; [tauto | reflexivity]); try reflexivity; try discriminate H.
      destruct H as [[H|H] _]; discriminate H. }
  destruct reason as [e|w].
  - assert (Hin : In e sameSiteExclusions
                  \/ e = ExcludeSameSiteNoneInsecure \/ e = ExcludeInvalidSameParty)
      by (destruct e; simpl; auto 6).
    destruct Hin as [Hin | [-> | ->]].
    + rewrite (Hthree e Hin).
      split; intros [[H|H] Hc]; (split; [|exact Hc]);
        first [left; congruence | right; congruence].
    + split; [cbn; discriminate | intros [[H|H] _]; discriminate H].
    + split; [cbn; discriminate | intros [[H|H] _]; discriminate H].
  - split; [destruct w; cbn; discriminate | intros [[H|H] _]; discriminate H].
Qed.

(** ** Further properties of the issue factory and of the adapter *)

Lemma warning_code_total w op url :
  exists c, forall ws, codeForSameSiteDetails (Warning w) ws op url = Some c.
Proof. destruct w; eexists; intro ws; reflexivity. Qed.

Lemma exclusion_code_corroborated e ws op url :
  corroborated ws = true ->
  exists c, codeForSameSiteDetails (Exclusion e) ws op url = Some c.
Proof.
  intro Hcor.
  assert (Hin : In e sameSiteExclusions
                \/ e = ExcludeSameSiteNoneInsecure \/ e = ExcludeInvalidSameParty)
    by (destruct e; simpl; auto 6).
  destruct Hin as [Hin | [-> | ->]].
  - rewrite (codeForSameSiteDetails_sameSite_exclusion e ws op url Hin), Hcor.
    destruct (includes (JS.elements ws) WarnSameSiteStrictLaxDowngradeStrict);
      eexists; reflexivity.
  - eexists; reflexivity.
  - eexists; reflexivity.
Qed.

Lemma flat_map_issuesOfCode_total {X : Type} d m (resolve : X -> option string) (l : list X) :
  (forall x, In x l -> exists c, resolve x = Some c) ->
  map (fun i => Some (code i)) (flat_map (fun x => issuesOfCode d m (resolve x)) l)
  = map resolve l.
Proof.
  induction l as [|x l IH]; intro Htotal; [reflexivity|].
  simpl. destruct (Htotal x (or_introl eq_refl)) as [c Hc].
  rewrite Hc. simpl. f_equal. apply IH. intros y Hy. apply Htotal. now right.
Qed.

Lemma createIssuesFromSameSiteDetails_model d m (i : SameSiteCookieIssue) :
  In i (createIssuesFromSameSiteDetails d m) -> issuesModel i = m.
Proof.
  rewrite createIssuesFromSameSiteDetails_unfold.
  destruct (JS.nonEmpty (cookieExclusionReasons d)); rewrite in_flat_map;
    intros [x [_ Hin]]; now apply In_issuesOfCode in Hin.
Qed.

Lemma app_inv_tail_string (a b s : string) : a ++ s = b ++ s -> a = b.
Proof.
  revert b. induction a as [|x a IH]; intros [|y b] H; simpl in H.
  - reflexivity.
  - exfalso. apply (f_equal String.length) in H. simpl in H.
    rewrite length_app in H. lia.
  - exfalso. apply (f_equal String.length) in H. simpl in H.
    rewrite length_app in H. lia.
  - injection H as Hxy Hrest. now rewrite Hxy, (IH b Hrest).
Qed.

(** X6: without exclusion reasons the factory makes exactly one issue for
    each warning reason, in order; its code is the one the resolver gives
    the warning, whether against the empty array or against the warning
    reasons of the report. *)
Theorem createIssuesFromSameSiteDetails_one_per_warning
    (sameSiteDetails : SameSiteCookieIssueDetails) (issuesModel : IssuesModel) :
  JS.nonEmpty (cookieExclusionReasons sameSiteDetails) = false ->
  map (fun issue => Some (code issue))
      (createIssuesFromSameSiteDetails sameSiteDetails issuesModel)
  = map (fun w => codeForSameSiteDetails (Warning w) (cookieWarningReasons sameSiteDetails)
                    (operation sameSiteDetails) (cookieUrl sameSiteDetails))
      (JS.elements (cookieWarningReasons sameSiteDetails))
  /\ List.length (createIssuesFromSameSiteDetails sameSiteDetails issuesModel)
     = List.length (JS.elements (cookieWarningReasons sameSiteDetails)).
Proof.
  intro Hex.
  assert (Hcodes : map (fun issue => Some (code issue))
      (createIssuesFromSameSiteDetails sameSiteDetails issuesModel)
  = map (fun w => codeForSameSiteDetails (Warning w) (cookieWarningReasons sameSiteDetails)
                    (operation sameSiteDetails) (cookieUrl sameSiteDetails))
      (JS.elements (cookieWarningReasons sameSiteDetails))).
  { rewrite createIssuesFromSameSiteDetails_unfold, Hex.
    rewrite flat_map_issuesOfCode_total.
    - apply map_ext. intro w.
      destruct (warning_code_total w (operation sameSiteDetails) (cookieUrl sameSiteDetails))
        as [c Hc].
      now rewrite !Hc.
    - intros w _.
      destruct (warning_code_total w (operation sameSiteDetails) (cookieUrl sameSiteDetails))
        as [c Hc].
      exists c. apply Hc. }
  split; [exact Hcodes|].
  apply (f_equal (@List.length _)) in Hcodes. now rewrite !length_map in Hcodes.
Qed.

(** X7: when the warning reasons of a blocked cookie hold a downgrade
    warning, no exclusion reason is dropped: the factory makes one issue for
    each, in order. *)
Theorem createIssuesFromSameSiteDetails_corroborated_complete
    (sameSiteDetails : SameSiteCookieIssueDetails) (issuesModel : IssuesModel) :
  JS.nonEmpty (cookieExclusionReasons sameSiteDetails) = true ->
  (exists w, In w downgradeWarnings
             /\ In w (JS.elements (cookieWarningReasons sameSiteDetails))) ->
  map (fun issue => Some (code issue))
      (createIssuesFromSameSiteDetails sameSiteDetails issuesModel)
  = map (fun e => codeForSameSiteDetails (Exclusion e) (cookieWarningReasons sameSiteDetails)
                    (operation sameSiteDetails) (cookieUrl sameSiteDetails))
      (JS.elements (cookieExclusionReasons sameSiteDetails))
  /\ List.length (createIssuesFromSameSiteDetails sameSiteDetails issuesModel)
     = List.length (JS.elements (cookieExclusionReasons sameSiteDetails)).
Proof.
  intros Hex Hcor. apply corroborated_true in Hcor.
  assert (Hcodes : map (fun issue => Some (code issue))
      (createIssuesFromSameSiteDetails sameSiteDetails issuesModel)
  = map (fun e => codeForSameSiteDetails (Exclusion e) (cookieWarningReasons sameSiteDetails)
                    (operation sameSiteDetails) (cookieUrl sameSiteDetails))
      (JS.elements (cookieExclusionReasons sameSiteDetails))).
  { rewrite createIssuesFromSameSiteDetails_unfold, Hex.
    apply flat_map_issuesOfCode_total.
    intros e _. now apply exclusion_code_corroborated. }
  split; [exact Hcodes|].
  apply (f_equal (@List.length _)) in Hcodes. now rewrite !length_map in Hcodes.
Qed.

(** X8: the issues made from one report share its cookie and request
    identities, so two of them have the same primary key exactly when they
    have the same code. *)
Theorem primaryKey_within_report
    (sameSiteDetails : SameSiteCookieIssueDetails) (issuesModel : IssuesModel)
    (issue other : SameSiteCookieIssue) :
  In issue (createIssuesFromSameSiteDetails sameSiteDetails issuesModel) ->
  In other (createIssuesFromSameSiteDetails sameSiteDetails issuesModel) ->
  cookieId issue = cookieId other
  /\ primaryKey_requestId issue = primaryKey_requestId other
  /\ (primaryKey issue = primaryKey other <-> code issue = code other).
Proof.
  intros Hi Ho.
  apply createIssuesFromSameSiteDetails_details in Hi, Ho.
  assert (Hcid : cookieId issue = cookieId other) by (unfold cookieId; now rewrite Hi, Ho).
  assert (Hrid : primaryKey_requestId issue = primaryKey_requestId other)
    by (unfold primaryKey_requestId; now rewrite Hi, Ho).
  split; [exact Hcid|]. split; [exact Hrid|].
  unfold primaryKey. rewrite Hcid, Hrid. split.
  - apply app_inv_tail_string.
  - now intros ->.
Qed.

(** X9: the issues of one notification are made from its payload and for
    the given model; they agree on the kind, on the affected cookies and
    requests and on the third-party attribution. *)
Theorem fromInspectorIssue_uniform
    (model : IssuesModel) (inspectorIssue : InspectorIssue)
    (topFrame : option ResourceTreeFrame) (issue other : SameSiteCookieIssue) :
  In issue (snd (fromInspectorIssue model inspectorIssue)) ->
  In other (snd (fromInspectorIssue model inspectorIssue)) ->
  sameSiteCookieIssueDetails (details inspectorIssue) = Some (issueDetails issue)
  /\ issuesModel issue = model
  /\ getKind issue = getKind other
  /\ cookies issue = cookies other
  /\ requests issue = requests other
  /\ issue_isCausedByThirdParty topFrame issue = issue_isCausedByThirdParty topFrame other.
Proof.
  unfold fromInspectorIssue.
  destruct (sameSiteCookieIssueDetails (details inspectorIssue)) as [d|]; simpl;
    [|contradiction].
  intros Hi Ho.
  pose proof (createIssuesFromSameSiteDetails_model _ _ _ Hi) as Hm.
  apply createIssuesFromSameSiteDetails_details in Hi, Ho.
  unfold getKind, cookies, requests, issue_isCausedByThirdParty.
  rewrite Hi, Ho. repeat split; assumption.
Qed.

(** ** Properties of the description table *)

Lemma JSMap_get_In {V : Type} (m : JSMap.t V) (k : string) (v : V) :
  JSMap.get m k = Some v -> In (k, v) m.
Proof.
  induction m as [|[k' v'] m IH]; simpl; [discriminate|].
  destruct (String.eqb_spec k' k) as [->|_].
  - intro H. injection H as ->. now left.
  - intro H. right. now apply IH.
Qed.

(** The constructor of the map overrides no entry of the array literal. *)
Lemma issueDescriptions_entries : issueDescriptions = issueDescriptionEntries.
Proof. reflexivity. Qed.

Ltac resolve_with_reason r :=
  first [ exists r, None, ReadCookie, None; reflexivity
        | exists r, None, SetCookie, None; reflexivity
        | exists r, None, ReadCookie, (Some "https://"); reflexivity
        | exists r, None, SetCookie, (Some "https://"); reflexivity
        | exists r, (Some [WarnSameSiteStrictLaxDowngradeStrict]), ReadCookie, None; reflexivity
        | exists r, (Some [WarnSameSiteStrictLaxDowngradeStrict]), ReadCookie, (Some "https://");
          reflexivity
        | exists r, (Some [WarnSameSiteLaxCrossDowngradeLax]), ReadCookie, None; reflexivity
        | exists r, (Some [WarnSameSiteLaxCrossDowngradeLax]), SetCookie, None; reflexivity
        | exists r, (Some [WarnSameSiteLaxCrossDowngradeLax]), ReadCookie, (Some "https://");
          reflexivity
        | exists r, (Some [WarnSameSiteLaxCrossDowngradeLax]), SetCookie, (Some "https://");
          reflexivity ].

Ltac resolve_key :=
  first [ resolve_with_reason (Exclusion ExcludeSameSiteUnspecifiedTreatedAsLax)
        | resolve_with_reason (Exclusion ExcludeSameSiteNoneInsecure)
        | resolve_with_reason (Exclusion ExcludeInvalidSameParty)
        | resolve_with_reason (Warning WarnSameSiteUnspecifiedCrossSiteContext)
        | resolve_with_reason (Warning WarnSameSiteNoneInsecure)
        | resolve_with_reason (Warning WarnSameSiteUnspecifiedLaxAllowUnsafe)
        | resolve_with_reason (Warning WarnSameSiteStrictLaxDowngradeStrict)
        | resolve_with_reason (Warning WarnSameSiteStrictCrossDowngradeStrict) ].

Ltac decide_entry :=
  vm_compute;
  split;
  [ first [discriminate | intros _; split; reflexivity]
  | first [reflexivity | intros [H1 H2]; first [discriminate H1 | discriminate H2]] ].

(** The codes without an entry in the table, among those of the reasons
    that the module names. *)
Lemma issueDescriptions_get_none reason ws op url c :
  In reason namedReasons ->
  codeForSameSiteDetails reason ws op url = Some c ->
  (JSMap.get issueDescriptions c = None
   <-> reason = Exclusion ExcludeInvalidSameParty /\ op = ReadCookie).
Proof.
  intro Hnamed.
  assert (Hcases :
    (exists e, reason = Exclusion e /\ In e sameSiteExclusions)
    \/ In reason [Exclusion ExcludeSameSiteNoneInsecure; Exclusion ExcludeInvalidSameParty]
    \/ (exists w, reason = Warning w
                  /\ In (Warning w) namedReasons)).
  { simpl in Hnamed.
    repeat (destruct Hnamed as [<- | Hnamed];
            [first [ left; eexists; split; [reflexivity | simpl; tauto]
                   | right; left; simpl; tauto
                   | right; right; eexists; split; [reflexivity | simpl; tauto] ]|]).
    contradiction. }
  destruct Hcases as [[e [-> Hin]] | [Hgen | [w [-> Hw]]]].
  - rewrite (codeForSameSiteDetails_sameSite_exclusion e ws op url Hin).
    generalize (secureLabel_cases url). generalize (secureLabel url).
    intros s [-> | ->];
      destruct (corroborated ws);
      try destruct (includes (JS.elements ws) WarnSameSiteStrictLaxDowngradeStrict);
      simpl in Hin; destruct Hin as [<-|[<-|[<-|[]]]]; destruct op;
      intro H; try discriminate H; injection H as <-; decide_entry.
  - simpl in Hgen. destruct Hgen as [<-|[<-|[]]];
      destruct op; intro H; injection H as <-; decide_entry.
  - unfold codeForSameSiteDetails.
    generalize (secureLabel_cases url). generalize (secureLabel url).
    simpl in Hw.
    intros s [-> | ->];
      repeat (destruct Hw as [Hw | Hw];
              [first [discriminate Hw | injection Hw as <-]; destruct op;
               intro H; injection H as <-; decide_entry|]);
      contradiction.
Qed.

(** X10: for the reasons that the module names, a code of the resolver has
    an entry in [issueDescriptions], and [getDescription()] a result, in
    every case but one: the reason [ExcludeInvalidSameParty] with the
    operation [ReadCookie]. *)
Theorem getDescription_null_iff
    (reason : Reason) (warningReasons : option (list SameSiteCookieWarningReason))
    (operation : SameSiteCookieOperation) (cookieUrl : option string)
    (c : string) (sameSiteDetails : SameSiteCookieIssueDetails) (model : IssuesModel) :
  In reason namedReasons ->
  codeForSameSiteDetails reason warningReasons operation cookieUrl = Some c ->
  (getDescription (newSameSiteCookieIssue c sameSiteDetails model) = None
   <-> reason = Exclusion ExcludeInvalidSameParty /\ operation = ReadCookie)
  /\ (JSMap.get issueDescriptions c = None
      <-> reason = Exclusion ExcludeInvalidSameParty /\ operation = ReadCookie).
Proof.
  intros Hnamed H. pose proof (issueDescriptions_get_none _ _ _ _ _ Hnamed H) as Hget.
  split; [|exact Hget].
  rewrite <- Hget. unfold getDescription, newSameSiteCookieIssue, code.
  destruct (JSMap.get issueDescriptions c); split; intro H'; try reflexivity; discriminate H'.
Qed.

Lemma distinct_NoDup (l : list string) : distinct l = true -> NoDup l.
Proof.
  induction l as [|x l IH]; simpl; intro H; [apply NoDup_nil|].
  apply andb_true_iff in H. destruct H as [Hx Hl].
  apply NoDup_cons; [|now apply IH].
  intro Hin. apply negb_true_iff in Hx.
  assert (Hex : existsb (String.eqb x) l = true)
    by (apply existsb_exists; exists x; split; [exact Hin | apply String.eqb_refl]).
  congruence.
Qed.

(** X11: the table has 23 entries under distinct keys, and every key is a
    code that the resolver returns on some input. *)
Theorem issueDescriptions_keys (k : string) :
  NoDup (JSMap.keys issueDescriptions)
  /\ List.length (JSMap.keys issueDescriptions) = 23
  /\ (In k (JSMap.keys issueDescriptions) ->
      exists reason warningReasons operation cookieUrl,
        codeForSameSiteDetails reason warningReasons operation cookieUrl = Some k).
Proof.
  split; [|split; [reflexivity|]].
  - apply distinct_NoDup. vm_compute. reflexivity.
  - intro Hin.
    change (In k (map fst issueDescriptionEntries)) in Hin.
    cbv [issueDescriptionEntries map fst In] in Hin.
    repeat (destruct Hin as [<- | Hin]; [resolve_key|]). contradiction.
Qed.

Ltac opposite_phrases :=
  first
    [ exists "a secure", "an insecure";
      split; [reflexivity|]; split; [reflexivity|];
      split; [left; split; reflexivity|];
      vm_compute; split; intros _; reflexivity
    | exists "an insecure", "a secure";
      split; [reflexivity|]; split; [reflexivity|];
      split; [right; split; reflexivity|];
      vm_compute; split; (let Hf := fresh in intro Hf; discriminate Hf) ].

(** X12: an entry of the table carries substitutions exactly when its key
    ends in the secure label.  The substitutions then fill both
    placeholders, one with [a secure] and the other with [an insecure]; the
    destination is the secure one for the keys that end in [::Secure],
    except under [WarnCrossDowngrade::SetCookie], where it is the origin. *)
Theorem issueDescriptions_schemeful (k : string) (d : LazyMarkdownIssueDescription) :
  JSMap.get issueDescriptions k = Some d ->
  (substitutions d = None <-> hasSecureSuffix k = false)
  /\ (forall subs, substitutions d = Some subs ->
      exists dest orig,
        phrase subs "PLACEHOLDER_destination" = Some dest
        /\ phrase subs "PLACEHOLDER_origin" = Some orig
        /\ ((dest = "a secure" /\ orig = "an insecure")
            \/ (dest = "an insecure" /\ orig = "a secure"))
        /\ (dest = "a secure"
            <-> xorb (JS.endsWith k "::Secure")
                     (JS.startsWith k "SameSiteCookieIssue::WarnCrossDowngrade::SetCookie")
                = true)).
Proof.
  intro H. apply JSMap_get_In in H. rewrite issueDescriptions_entries in H.
  cbv [issueDescriptionEntries In] in H.
  repeat (destruct H as [H | H];
          [injection H as <- <-; split;
           [vm_compute; split; intro H'; first [reflexivity | discriminate H']
           |intros subs Hs; simpl in Hs; first [discriminate Hs | injection Hs as <-];
            opposite_phrases]|]).
  contradiction.
Qed.

(** ** Further properties of the domain comparison *)

Lemma string_app_assoc (s t u : string) : (s ++ t) ++ u = s ++ t ++ u.
Proof. induction s as [|a s IH]; simpl; [reflexivity | now rewrite IH]. Qed.

Lemma string_app_empty_r (s : string) : s ++ "" = s.
Proof. induction s as [|a s IH]; simpl; [reflexivity | now rewrite IH]. Qed.

(** [sub] is [sup], or a label and a dot before [sup]. *)
Lemma isSubdomainOf_iff (sub sup : string) :
  isSubdomainOf sub sup = true <-> sub = sup \/ exists q, sub = (q ++ ".") ++ sup.
Proof.
  destruct (Nat.leb_spec (String.length sub) (String.length sup)) as [Hle|Hlt].
  - assert (Hdef : isSubdomainOf sub sup = String.eqb sub sup).
    { unfold isSubdomainOf.
      destruct (Nat.leb_spec (String.length sub) (String.length sup)); [reflexivity | lia]. }
    rewrite Hdef, String.eqb_eq. split; [now left|].
    intros [H | [q H]]; [exact H|].
    exfalso. apply (f_equal String.length) in H. rewrite !length_app in H. simpl in H. lia.
  - rewrite (isSubdomainOf_label sub sup Hlt). split; [now right|].
    intros [H | H]; [|exact H]. subst sub. lia.
Qed.

(** X13: [isSubdomainOf] is a partial order on strings: reflexive,
    antisymmetric and transitive. *)
Theorem isSubdomainOf_order (a b c : string) :
  isSubdomainOf a a = true
  /\ (isSubdomainOf a b = true -> isSubdomainOf b a = true -> a = b)
  /\ (isSubdomainOf a b = true -> isSubdomainOf b c = true -> isSubdomainOf a c = true).
Proof.
  rewrite !isSubdomainOf_iff. split; [now left|]. split.
  - intros [H | [q H]] [H' | [q' H']]; try congruence.
    exfalso. apply (f_equal String.length) in H, H'.
    rewrite !length_app in H, H'. simpl in H, H'. lia.
  - intros [-> | [q ->]] [-> | [q' ->]].
    + now left.
    + right. now exists q'.
    + right. now exists q.
    + right. exists (q ++ "." ++ q').
      now rewrite !string_app_assoc.
Qed.

(** X14: a label and a dot in front of a domain give a subdomain of it, and
    of every domain it is a subdomain of; under the empty superdomain the
    subdomains are the empty string and the strings that end in a dot. *)
Theorem isSubdomainOf_label_closed (label sub sup : string) :
  isSubdomainOf (label ++ "." ++ sub) sub = true
  /\ (isSubdomainOf sub sup = true -> isSubdomainOf (label ++ "." ++ sub) sup = true)
  /\ (isSubdomainOf sub "" = true <-> sub = "" \/ exists q, sub = q ++ ".").
Proof.
  rewrite !isSubdomainOf_iff. split; [|split].
  - right. exists label. now rewrite string_app_assoc.
  - intros [-> | [q ->]]; right.
    + exists label. now rewrite string_app_assoc.
    + exists (label ++ "." ++ q). now rewrite !string_app_assoc.
  - split; (intros [H | [q H]]; [now left | right; exists q]).
    + now rewrite string_app_empty_r in H.
    + now rewrite string_app_empty_r.
Qed.

(** X15: with a top frame whose registrable domain is not empty, an issue
    whose cookie URL is not empty and parses is a first-party issue exactly
    when the domain of that URL is the registrable domain or ends in a dot
    followed by it. *)
Theorem isCausedByThirdParty_first_party_iff
    (frame : ResourceTreeFrame) (cookieUrl : string) (parsed : ParsedURL) :
  domainAndRegistry frame <> "" ->
  cookieUrl <> "" ->
  ParsedURL_fromString cookieUrl = Some parsed ->
  (isCausedByThirdParty (Some frame) (Some cookieUrl) = false
   <-> ParsedURL_domain parsed = domainAndRegistry frame
       \/ exists label,
            ParsedURL_domain parsed = (label ++ ".") ++ domainAndRegistry frame).
Proof.
  intros Hdom Hurl Hparse. rewrite <- isSubdomainOf_iff.
  unfold isCausedByThirdParty, JS.truthy.
  apply String.eqb_neq in Hdom, Hurl. rewrite Hdom, Hurl. simpl. rewrite Hparse.
  destruct (isSubdomainOf (ParsedURL_domain parsed) (domainAndRegistry frame)); simpl;
    split; intro H; try reflexivity; discriminate H.
Qed.

End Classifier.

(** ** The theorems on concrete reports *)

Lemma codeForSameSiteDetails_navigation_downgrade_witness :
  In ExcludeSameSiteLax
     [ExcludeSameSiteStrict; ExcludeSameSiteLax; ExcludeSameSiteUnspecifiedTreatedAsLax]
  /\ In WarnSameSiteStrictLaxDowngradeStrict
        [WarnSameSiteLaxCrossDowngradeLax; WarnSameSiteStrictLaxDowngradeStrict]
  /\ codeForSameSiteDetails (Exclusion ExcludeSameSiteLax)
       (Some [WarnSameSiteLaxCrossDowngradeLax; WarnSameSiteStrictLaxDowngradeStrict])
       SetCookie (Some "wss://a.com")
     = Some "SameSiteCookieIssue::ExcludeNavigationContextDowngrade::Secure".
Proof.
  split; [simpl; tauto|]. split; [simpl; tauto|].
  apply (codeForSameSiteDetails_navigation_downgrade ExcludeSameSiteLax
           [WarnSameSiteLaxCrossDowngradeLax; WarnSameSiteStrictLaxDowngradeStrict]
           SetCookie (Some "wss://a.com")); simpl; tauto.
Defined.

Lemma codeForSameSiteDetails_uncorroborated_witness :
  (forall w, In w downgradeWarnings -> ~ In w [WarnSameSiteNoneInsecure])
  /\ codeForSameSiteDetails (Exclusion ExcludeSameSiteUnspecifiedTreatedAsLax)
       (Some [WarnSameSiteNoneInsecure]) ReadCookie None
     = Some "SameSiteCookieIssue::ExcludeSameSiteUnspecifiedTreatedAsLax::ReadCookie"
  /\ codeForSameSiteDetails (Exclusion ExcludeSameSiteStrict)
       (Some [WarnSameSiteNoneInsecure]) ReadCookie None = None
  /\ codeForSameSiteDetails (Exclusion ExcludeSameSiteLax)
       (Some [WarnSameSiteNoneInsecure]) ReadCookie None = None.
Proof.
  assert (Hfree : forall w, In w downgradeWarnings -> ~ In w [WarnSameSiteNoneInsecure]).
  { intros w Hin [Hw | []]. subst w. simpl in Hin.
    repeat (destruct Hin as [Hin | Hin]; [discriminate Hin|]). exact Hin. }
  split; [exact Hfree|].
  exact (codeForSameSiteDetails_uncorroborated (Some [WarnSameSiteNoneInsecure])
           ReadCookie None Hfree).
Defined.

Lemma codeForSameSiteDetails_secure_scope_witness :
  In ExcludeSameSiteLax sameSiteExclusions
  /\ ~ In WarnSameSiteStrictLaxDowngradeStrict [WarnSameSiteLaxCrossDowngradeLax]
  /\ (exists w, In w crossDowngradeWarnings /\ In w [WarnSameSiteLaxCrossDowngradeLax])
  /\ codeForSameSiteDetails (Exclusion ExcludeSameSiteLax)
       (Some [WarnSameSiteLaxCrossDowngradeLax]) SetCookie (Some "wss://a.com")
     = Some "SameSiteCookieIssue::ExcludeContextDowngrade::SetCookie::Secure"
  /\ codeForSameSiteDetails (Warning WarnSameSiteStrictLaxDowngradeStrict)
       (Some []) ReadCookie (Some "ws://a.com")
     = Some "SameSiteCookieIssue::WarnSameSiteStrictLaxDowngradeStrict::Insecure".
Proof.
  assert (Hlax : In ExcludeSameSiteLax sameSiteExclusions) by (simpl; tauto).
  assert (Hnav : ~ In WarnSameSiteStrictLaxDowngradeStrict [WarnSameSiteLaxCrossDowngradeLax])
    by (intros [H | []]; discriminate H).
  assert (Hcross : exists w, In w crossDowngradeWarnings
                             /\ In w [WarnSameSiteLaxCrossDowngradeLax])
    by (exists WarnSameSiteLaxCrossDowngradeLax; simpl; tauto).
  split; [exact Hlax|]. split; [exact Hnav|]. split; [exact Hcross|]. split.
  - exact (proj1 (proj2 (proj2 (proj2
      (codeForSameSiteDetails_secure_scope (Exclusion ExcludeSameSiteLax)
         (Some [WarnSameSiteLaxCrossDowngradeLax]) SetCookie (Some "wss://a.com")))))
      ExcludeSameSiteLax eq_refl Hlax Hnav Hcross).
  - exact (proj1 (proj2 (proj2 (proj2 (proj2
      (codeForSameSiteDetails_secure_scope (Warning WarnSameSiteStrictLaxDowngradeStrict)
         (Some []) ReadCookie (Some "ws://a.com"))))))
      eq_refl).
Defined.

Lemma isCausedByThirdParty_spec_witness :
  sampleParse "" = None
  /\ isCausedByThirdParty string sampleParse (fun host => host)
       (Some {| domainAndRegistry := "b.com" |}) (Some "https://a.b.com")
     = negb (isSubdomainOf "a.b.com" "b.com")
  /\ isCausedByThirdParty string sampleParse (fun host => host)
       (Some {| domainAndRegistry := "b.com" |}) (Some "https://evilb.com")
     = negb (isSubdomainOf "evilb.com" "b.com").
Proof.
  split; [reflexivity|]. split.
  - apply (proj1 (proj2 (proj2 (proj2
      (isCausedByThirdParty_spec unit string sampleParse (fun host => host) eq_refl
         (Some {| domainAndRegistry := "b.com" |}) (Some "https://a.b.com"))))))
      with (frame := {| domainAndRegistry := "b.com" |}) (u := "https://a.b.com");
      [reflexivity | reflexivity | discriminate | reflexivity].
  - apply (proj1 (proj2 (proj2 (proj2
      (isCausedByThirdParty_spec unit string sampleParse (fun host => host) eq_refl
         (Some {| domainAndRegistry := "b.com" |}) (Some "https://evilb.com"))))))
      with (frame := {| domainAndRegistry := "b.com" |}) (u := "https://evilb.com");
      [reflexivity | reflexivity | discriminate | reflexivity].
Defined.

Lemma createIssuesFromSameSiteDetails_exclusion_priority_witness :
  cookieExclusionReasons blockedReport
  = Some [ExcludeSameSiteStrict; ExcludeSameSiteUnspecifiedTreatedAsLax]
  /\ [ExcludeSameSiteStrict; ExcludeSameSiteUnspecifiedTreatedAsLax] <> []
  /\ createIssuesFromSameSiteDetails unit blockedReport tt
     = [newSameSiteCookieIssue unit
          "SameSiteCookieIssue::ExcludeSameSiteUnspecifiedTreatedAsLax::ReadCookie"
          blockedReport tt].
Proof.
  split; [reflexivity|]. split; [discriminate|].
  exact (proj1 (createIssuesFromSameSiteDetails_exclusion_priority unit blockedReport tt
                  [ExcludeSameSiteStrict; ExcludeSameSiteUnspecifiedTreatedAsLax]
                  eq_refl ltac:(discriminate))).
Defined.

(** An uncorroborated exclusion silences the warning of its report: the
    factory returns nothing, although the warning alone makes an issue. *)
Example exclusion_suppresses_warning :
  createIssuesFromSameSiteDetails unit suppressedReport tt = []
  /\ codeForSameSiteDetails (Warning WarnSameSiteNoneInsecure) (Some [])
       (operation suppressedReport) (cookieUrl suppressedReport)
     = Some "SameSiteCookieIssue::WarnSameSiteNoneInsecure::SetCookie".
Proof. split; reflexivity. Qed.

Lemma createIssuesFromSameSiteDetails_warning_branch_witness :
  (cookieExclusionReasons warnedReport = None \/ cookieExclusionReasons warnedReport = Some [])
  /\ createIssuesFromSameSiteDetails unit warnedReport tt
     = [newSameSiteCookieIssue unit
          "SameSiteCookieIssue::WarnSameSiteStrictLaxDowngradeStrict::Insecure" warnedReport tt;
        newSameSiteCookieIssue unit
          "SameSiteCookieIssue::WarnSameSiteNoneInsecure::SetCookie" warnedReport tt].
Proof.
  split; [right; reflexivity|].
  exact (createIssuesFromSameSiteDetails_warning_branch unit warnedReport tt
           (or_intror eq_refl)).
Defined.

Lemma fromInspectorIssue_missing_details_witness :
  sameSiteCookieIssueDetails
    (details (Build_InspectorIssue "SameSiteCookieIssue" (Build_InspectorIssueDetails None)))
  = None
  /\ fromInspectorIssue unit tt
       (Build_InspectorIssue "SameSiteCookieIssue" (Build_InspectorIssueDetails None))
     = (["SameSite issue without details received."], []).
Proof.
  split; [reflexivity|].
  exact (fromInspectorIssue_missing_details unit tt
           (Build_InspectorIssue "SameSiteCookieIssue" (Build_InspectorIssueDetails None))
           eq_refl).
Defined.

Lemma getKind_spec_witness :
  In (newSameSiteCookieIssue unit
        "SameSiteCookieIssue::ExcludeSameSiteUnspecifiedTreatedAsLax::ReadCookie"
        blockedReport tt)
     (createIssuesFromSameSiteDetails unit blockedReport tt)
  /\ getKind unit
       (newSameSiteCookieIssue unit
          "SameSiteCookieIssue::ExcludeSameSiteUnspecifiedTreatedAsLax::ReadCookie"
          blockedReport tt)
     = PageError.
Proof.
  assert (Hin : In (newSameSiteCookieIssue unit
        "SameSiteCookieIssue::ExcludeSameSiteUnspecifiedTreatedAsLax::ReadCookie"
        blockedReport tt)
     (createIssuesFromSameSiteDetails unit blockedReport tt)) by (left; reflexivity).
  split; [exact Hin|].
  exact (proj2 (proj2 (getKind_spec unit _ blockedReport tt)) Hin).
Defined.

(** One code for one cookie and one request, from two reports that differ
    in a field that no identity reads. *)
Lemma primaryKey_spec_witness :
  let issue :=
    newSameSiteCookieIssue unit
      "SameSiteCookieIssue::ExcludeSameSiteUnspecifiedTreatedAsLax::ReadCookie"
      blockedReport tt in
  let other :=
    newSameSiteCookieIssue unit
      "SameSiteCookieIssue::ExcludeSameSiteUnspecifiedTreatedAsLax::ReadCookie"
      (withOperation blockedReport SetCookie) tt in
  occursIn "-(" (code unit issue) = false
  /\ occursIn "-(" (code unit other) = false
  /\ occursIn ")-(" (primaryKey_requestId unit issue) = false
  /\ occursIn ")-(" (primaryKey_requestId unit other) = false
  /\ primaryKey unit issue = primaryKey unit other
  /\ (code unit issue = code unit other /\ cookieId unit issue = cookieId unit other
      /\ primaryKey_requestId unit issue = primaryKey_requestId unit other).
Proof.
  intros issue other. do 5 (split; [reflexivity|]).
  exact (proj2 (proj2 (proj2 (proj2 (primaryKey_spec unit issue other))))
           eq_refl eq_refl eq_refl eq_refl eq_refl).
Defined.

(** C9 as stated fails: two issues of the factory share a primary key while
    their cookie identities and their request identities differ. *)
Lemma primaryKey_clash :
  let left :=
    newSameSiteCookieIssue unit "SameSiteCookieIssue::WarnSameSiteNoneInsecure::SetCookie"
      clashLeftReport tt in
  let right :=
    newSameSiteCookieIssue unit "SameSiteCookieIssue::WarnSameSiteNoneInsecure::SetCookie"
      clashRightReport tt in
  createIssuesFromSameSiteDetails unit clashLeftReport tt = [left]
  /\ createIssuesFromSameSiteDetails unit clashRightReport tt = [right]
  /\ ~ (primaryKey unit left = primaryKey unit right
        <-> code unit left = code unit right
            /\ cookieId unit left = cookieId unit right
            /\ primaryKey_requestId unit left = primaryKey_requestId unit right).
Proof.
  intros left right. split; [reflexivity|]. split; [reflexivity|].
  intros [Hkey _]. destruct (Hkey eq_refl) as [_ [Hcid _]]. discriminate Hcid.
Qed.

(** ** The further properties on concrete inputs *)

Lemma codeForSameSiteDetails_cross_downgrade_shared_witness :
  In WarnSameSiteLaxCrossDowngradeStrict crossDowngradeWarnings
  /\ codeForSameSiteDetails (Warning WarnSameSiteLaxCrossDowngradeStrict)
       (Some [WarnSameSiteNoneInsecure]) SetCookie (Some "https://a.com")
     = Some "SameSiteCookieIssue::WarnCrossDowngrade::SetCookie::Secure".
Proof.
  split; [simpl; tauto|].
  apply (codeForSameSiteDetails_cross_downgrade_shared WarnSameSiteLaxCrossDowngradeStrict
           (Some [WarnSameSiteNoneInsecure]) SetCookie (Some "https://a.com")).
  simpl; tauto.
Defined.

Lemma codeForSameSiteDetails_warning_set_witness :
  (forall w,
     In w [WarnSameSiteNoneInsecure; WarnSameSiteLaxCrossDowngradeLax]
     <-> In w [WarnSameSiteLaxCrossDowngradeLax; WarnSameSiteNoneInsecure;
               WarnSameSiteLaxCrossDowngradeLax])
  /\ codeForSameSiteDetails (Exclusion ExcludeSameSiteLax)
       (Some [WarnSameSiteNoneInsecure; WarnSameSiteLaxCrossDowngradeLax]) ReadCookie None
     = codeForSameSiteDetails (Exclusion ExcludeSameSiteLax)
         (Some [WarnSameSiteLaxCrossDowngradeLax; WarnSameSiteNoneInsecure;
                WarnSameSiteLaxCrossDowngradeLax]) ReadCookie None.
Proof.
  assert (Hext : forall w,
     In w [WarnSameSiteNoneInsecure; WarnSameSiteLaxCrossDowngradeLax]
     <-> In w [WarnSameSiteLaxCrossDowngradeLax; WarnSameSiteNoneInsecure;
               WarnSameSiteLaxCrossDowngradeLax]) by (intro w; simpl; tauto).
  split; [exact Hext|].
  exact (codeForSameSiteDetails_warning_set (Exclusion ExcludeSameSiteLax)
           (Some [WarnSameSiteNoneInsecure; WarnSameSiteLaxCrossDowngradeLax])
           (Some [WarnSameSiteLaxCrossDowngradeLax; WarnSameSiteNoneInsecure;
                  WarnSameSiteLaxCrossDowngradeLax]) ReadCookie None Hext).
Defined.

Lemma codeForSameSiteDetails_corroborated_merge_witness :
  In ExcludeSameSiteStrict sameSiteExclusions
  /\ In ExcludeSameSiteUnspecifiedTreatedAsLax sameSiteExclusions
  /\ (exists w, In w downgradeWarnings /\ In w [WarnSameSiteStrictCrossDowngradeLax])
  /\ codeForSameSiteDetails (Exclusion ExcludeSameSiteStrict)
       (Some [WarnSameSiteStrictCrossDowngradeLax]) SetCookie None
     = codeForSameSiteDetails (Exclusion ExcludeSameSiteUnspecifiedTreatedAsLax)
         (Some [WarnSameSiteStrictCrossDowngradeLax]) SetCookie None.
Proof.
  assert (Hcor : exists w, In w downgradeWarnings /\ In w [WarnSameSiteStrictCrossDowngradeLax])
    by (exists WarnSameSiteStrictCrossDowngradeLax; simpl; tauto).
  split; [simpl; tauto|]. split; [simpl; tauto|]. split; [exact Hcor|].
  apply (codeForSameSiteDetails_corroborated_merge ExcludeSameSiteStrict
           ExcludeSameSiteUnspecifiedTreatedAsLax
           (Some [WarnSameSiteStrictCrossDowngradeLax]) SetCookie None);
    [simpl; tauto | simpl; tauto | exact Hcor].
Defined.

Lemma codeForSameSiteDetails_null_iff_witness :
  codeForSameSiteDetails (Exclusion ExcludeSameSiteLax) (Some [WarnSameSiteNoneInsecure])
    SetCookie (Some "https://a.com") = None.
Proof.
  apply (codeForSameSiteDetails_null_iff (Exclusion ExcludeSameSiteLax)
           (Some [WarnSameSiteNoneInsecure]) SetCookie (Some "https://a.com")).
  split; [right; reflexivity|].
  intros w Hw [Hin | []]. subst w. simpl in Hw.
  repeat (destruct Hw as [Hw | Hw]; [discriminate Hw|]). exact Hw.
Defined.

Lemma createIssuesFromSameSiteDetails_one_per_warning_witness :
  JS.nonEmpty (cookieExclusionReasons warnedReport) = false
  /\ List.length (createIssuesFromSameSiteDetails unit warnedReport tt) = 2.
Proof.
  split; [reflexivity|].
  exact (proj2 (createIssuesFromSameSiteDetails_one_per_warning unit warnedReport tt eq_refl)).
Defined.

Lemma createIssuesFromSameSiteDetails_corroborated_complete_witness :
  JS.nonEmpty (cookieExclusionReasons downgradedReport) = true
  /\ (exists w, In w downgradeWarnings
                /\ In w (JS.elements (cookieWarningReasons downgradedReport)))
  /\ map (fun issue => Some (code unit issue))
       (createIssuesFromSameSiteDetails unit downgradedReport tt)
     = [Some "SameSiteCookieIssue::ExcludeNavigationContextDowngrade::Insecure";
        Some "SameSiteCookieIssue::ExcludeSameSiteNoneInsecure::ReadCookie";
        Some "SameSiteCookieIssue::ExcludeNavigationContextDowngrade::Insecure"].
Proof.
  assert (Hcor : exists w, In w downgradeWarnings
                /\ In w (JS.elements (cookieWarningReasons downgradedReport)))
    by (exists WarnSameSiteStrictLaxDowngradeStrict; simpl; tauto).
  split; [reflexivity|]. split; [exact Hcor|].
  exact (proj1 (createIssuesFromSameSiteDetails_corroborated_complete unit downgradedReport tt
                  eq_refl Hcor)).
Defined.

Lemma primaryKey_within_report_witness :
  let issue :=
    newSameSiteCookieIssue unit
      "SameSiteCookieIssue::ExcludeNavigationContextDowngrade::Insecure" downgradedReport tt in
  let other :=
    newSameSiteCookieIssue unit
      "SameSiteCookieIssue::ExcludeSameSiteNoneInsecure::ReadCookie" downgradedReport tt in
  In issue (createIssuesFromSameSiteDetails unit downgradedReport tt)
  /\ In other (createIssuesFromSameSiteDetails unit downgradedReport tt)
  /\ primaryKey unit issue <> primaryKey unit other.
Proof.
  intros issue other.
  assert (Hi : In issue (createIssuesFromSameSiteDetails unit downgradedReport tt))
    by (left; reflexivity).
  assert (Ho : In other (createIssuesFromSameSiteDetails unit downgradedReport tt))
    by (right; left; reflexivity).
  split; [exact Hi|]. split; [exact Ho|].
  intro Hkey.
  apply (proj2 (proj2 (primaryKey_within_report unit downgradedReport tt issue other Hi Ho)))
    in Hkey.
  discriminate Hkey.
Defined.

Lemma fromInspectorIssue_uniform_witness :
  let notification :=
    Build_InspectorIssue "SameSiteCookieIssue" (Build_InspectorIssueDetails (Some warnedReport)) in
  let issue :=
    newSameSiteCookieIssue unit
      "SameSiteCookieIssue::WarnSameSiteStrictLaxDowngradeStrict::Insecure" warnedReport tt in
  let other :=
    newSameSiteCookieIssue unit
      "SameSiteCookieIssue::WarnSameSiteNoneInsecure::SetCookie" warnedReport tt in
  In issue (snd (fromInspectorIssue unit tt notification))
  /\ In other (snd (fromInspectorIssue unit tt notification))
  /\ getKind unit issue = getKind unit other.
Proof.
  intros notification issue other.
  assert (Hi : In issue (snd (fromInspectorIssue unit tt notification)))
    by (left; reflexivity).
  assert (Ho : In other (snd (fromInspectorIssue unit tt notification)))
    by (right; left; reflexivity).
  split; [exact Hi|]. split; [exact Ho|].
  exact (proj1 (proj2 (proj2
    (fromInspectorIssue_uniform unit string sampleParse (fun host => host) tt notification
       None issue other Hi Ho)))).
Defined.

Lemma getDescription_null_iff_witness :
  In (Exclusion ExcludeInvalidSameParty) namedReasons
  /\ codeForSameSiteDetails (Exclusion ExcludeInvalidSameParty) None ReadCookie None
     = Some "SameSiteCookieIssue::ExcludeInvalidSameParty::ReadCookie"
  /\ getDescription unit (fun message => message) LazyMarkdownIssueDescription
       (fun description => description)
       (newSameSiteCookieIssue unit "SameSiteCookieIssue::ExcludeInvalidSameParty::ReadCookie"
          blockedReport tt)
     = None.
Proof.
  assert (Hnamed : In (Exclusion ExcludeInvalidSameParty) namedReasons)
    by (simpl; tauto).
  split; [exact Hnamed|]. split; [reflexivity|].
  apply (proj1 (getDescription_null_iff unit (fun message => message)
                  LazyMarkdownIssueDescription (fun description => description)
                  (Exclusion ExcludeInvalidSameParty) None ReadCookie None
                  "SameSiteCookieIssue::ExcludeInvalidSameParty::ReadCookie"
                  blockedReport tt Hnamed eq_refl)).
  split; reflexivity.
Defined.

Lemma issueDescriptions_keys_witness :
  In "SameSiteCookieIssue::WarnCrossDowngrade::SetCookie::Secure"
     (JSMap.keys (issueDescriptions (fun message => message)))
  /\ exists reason warningReasons operation cookieUrl,
       codeForSameSiteDetails reason warningReasons operation cookieUrl
       = Some "SameSiteCookieIssue::WarnCrossDowngrade::SetCookie::Secure".
Proof.
  assert (Hin : In "SameSiteCookieIssue::WarnCrossDowngrade::SetCookie::Secure"
     (JSMap.keys (issueDescriptions (fun message => message))))
    by (do 14 right; left; reflexivity).
  split; [exact Hin|].
  exact (proj2 (proj2 (issueDescriptions_keys (fun message => message)
                         "SameSiteCookieIssue::WarnCrossDowngrade::SetCookie::Secure")) Hin).
Defined.

Lemma issueDescriptions_schemeful_witness :
  JSMap.get (issueDescriptions (fun message => message))
    "SameSiteCookieIssue::WarnCrossDowngrade::SetCookie::Secure"
  = Some (sameSiteWarnCrossDowngradeSet (fun message => message) true)
  /\ (substitutions (sameSiteWarnCrossDowngradeSet (fun message => message) true) = None
      <-> hasSecureSuffix "SameSiteCookieIssue::WarnCrossDowngrade::SetCookie::Secure" = false).
Proof.
  split; [reflexivity|].
  exact (proj1 (issueDescriptions_schemeful (fun message => message)
                  "SameSiteCookieIssue::WarnCrossDowngrade::SetCookie::Secure"
                  (sameSiteWarnCrossDowngradeSet (fun message => message) true) eq_refl)).
Defined.

Lemma isSubdomainOf_order_witness :
  isSubdomainOf "a.b.com" "b.com" = true
  /\ isSubdomainOf "b.com" "com" = true
  /\ isSubdomainOf "a.b.com" "com" = true.
Proof.
  split; [reflexivity|]. split; [reflexivity|].
  exact (proj2 (proj2 (isSubdomainOf_order "a.b.com" "b.com" "com")) eq_refl eq_refl).
Defined.

Lemma isSubdomainOf_label_closed_witness :
  isSubdomainOf "b.com" "com" = true
  /\ isSubdomainOf ("www" ++ "." ++ "b.com") "com" = true.
Proof.
  split; [reflexivity|].
  exact (proj1 (proj2 (isSubdomainOf_label_closed "www" "b.com" "com")) eq_refl).
Defined.

Lemma isCausedByThirdParty_first_party_iff_witness :
  domainAndRegistry {| domainAndRegistry := "b.com" |} <> ""
  /\ "https://a.b.com" <> ""
  /\ sampleParse "https://a.b.com" = Some "a.b.com"
  /\ isCausedByThirdParty string sampleParse (fun host => host)
       (Some {| domainAndRegistry := "b.com" |}) (Some "https://a.b.com")
     = false.
Proof.
  split; [discriminate|]. split; [discriminate|]. split; [reflexivity|].
  apply (isCausedByThirdParty_first_party_iff string sampleParse (fun host => host)
           {| domainAndRegistry := "b.com" |} "https://a.b.com" "a.b.com");
    [discriminate | discriminate | reflexivity |].
  right. exists "a". reflexivity.
Defined.
